(** * Rendering of diagnostics in [src/libutil/error.cc]

    A shallow embedding of [showErrPos], [getCodeLines], [printCodeLines] and
    of [operator<<(std::ostream &, const ErrorInfo &)], followed by the
    properties of the rendered report.

    Conventions of the embedding:
    - an [int] is an integer of [Z]. The code adds or subtracts 1 or 2 on
      line numbers and counts the lines read, which stays inside the range of
      [int] unless a position sits at the very end of that range; the
      [size_t] to [int] conversion of the header arithmetic is written out
      ([int_of_size_t]);
    - a [std::ostream] is the text written to it so far, [std::endl] is a
      line feed;
    - [std::optional] is [option]; reading through an empty optional with
      [operator*] has no defined result ([Undefined]);
    - [fmt] is written out template by template, the template quoted next
      to each use; the colour macros are spliced into the templates and are
      taken to hold no format directive;
    - the file system is a function from paths to what [open] and the
      successive calls of [readLine] deliver, and every system call and
      [printError] of [getCodeLines] is recorded in a trace;
    - [error.hh], [logging.hh], [ansicolor.hh] and [util.cc] are not part of
      the sources: the records follow the fields the code uses, the
      enumerators of [Verbosity] and the colour macros are parameters, and
      [readLine] is the stream of lines it returns. *)

From Stdlib Require Import ZArith List String Ascii Bool Lia.
Import ListNotations.

Open Scope string_scope.
Open Scope Z_scope.

(** ** Text helpers *)

Definition endl : string := String (ascii_of_nat 10) "".

(** [n] copies of the one-character text [c], as the loops
    [for (int i = 0; i < n; ++i) s.append(c)] build them; the loop body never
    runs when [n <= 0]. *)
Fixpoint replicate (n : nat) (c : string) : string :=
  match n with
  | O => ""
  | S n' => c ++ replicate n' c
  end.

Definition appendLoop (n : Z) (c : string) : string := replicate (Z.to_nat n) c.

(** Decimal rendering of an [int], as a stream prints it. *)
Definition digitChar (d : Z) : ascii := ascii_of_nat (48 + Z.to_nat d).

Fixpoint showDigits (fuel : nat) (n : Z) (acc : string) : string :=
  match fuel with
  | O => acc
  | S fuel' =>
      let acc' := String (digitChar (n mod 10)) acc in
      if n / 10 =? 0 then acc' else showDigits fuel' (n / 10) acc'
  end.

Definition showNonneg (n : Z) : string :=
  showDigits (S (Z.to_nat (Z.log2 n))) n "".

Definition showInt (n : Z) : string :=
  if n <? 0 then "-" ++ showNonneg (- n) else showNonneg n.

(** The [%|N$5d|] directive: right-aligned in a field at least 5 wide. *)
Definition setw (w : nat) (s : string) : string :=
  replicate (w - String.length s) " " ++ s.

Definition value_or {A : Type} (o : option A) (d : A) : A :=
  match o with
  | Some a => a
  | None => d
  end.

(** ** Data model *)

(** Modelled from the spec: [error.hh], which declares [ErrPos], [NixCode] and
    [ErrorInfo], is not part of the sources. The records are the spec's
    Position, SourceSnippet and DiagnosticReport, with the field names the
    code uses. *)
Record ErrPos := mkErrPos
  { line : Z;
    column : Z;
    file : string }.

Record NixCode := mkNixCode
  { errPos : ErrPos;
    prevLineOfCode : option string;
    errLineOfCode : option string;
    nextLineOfCode : option string }.

(** [level] is the numeric value of a [Verbosity]; [hint] is the text
    [hintformat::str()] yields. [ErrorInfo::programName] is static and is
    passed to the renderer separately. *)
Record ErrorInfo := mkErrorInfo
  { level : Z;
    name : string;
    description : string;
    hint : option string;
    nixCode : option NixCode }.

(** The enumerators of [Verbosity] are declared in [logging.hh], the colour
    macros in [ansicolor.hh]; neither header is part of the sources, so their
    values are parameters of the embedding: the code is embedded for every
    choice of them. *)
Class VerbosityEnum := mkVerbosityEnum
  { lvlError : Z;
    lvlWarn : Z;
    lvlInfo : Z;
    lvlTalkative : Z;
    lvlChatty : Z;
    lvlVomit : Z;
    lvlDebug : Z }.

Definition enumerators {V : VerbosityEnum} : list Z :=
  [lvlError; lvlWarn; lvlInfo; lvlTalkative; lvlChatty; lvlVomit; lvlDebug].

Class AnsiColors := mkAnsiColors
  { ANSI_NORMAL : string;
    ANSI_RED : string;
    ANSI_GREEN : string;
    ANSI_YELLOW : string;
    ANSI_BLUE : string }.

(** Modelled from the spec: values for the enumerators where a report is
    evaluated, the spec's enumeration Error, Warn, Info, Talkative, Chatty,
    Vomit, Debug numbered from 0 in that order (the order of the [switch]). *)
Definition switchOrder : VerbosityEnum := mkVerbosityEnum 0 1 2 3 4 5 6.

Definition ESC : string := String (ascii_of_nat 27) "".

(** Modelled from the spec: values for the colour macros where a report is
    evaluated. The spec has them wrap text in on/off escape sequences, which
    a non-colouring environment renders as empty texts: [sgrColors] takes the
    usual SGR sequences, [noColors] the empty ones. *)
Definition sgrColors : AnsiColors :=
  mkAnsiColors (ESC ++ "[0m") (ESC ++ "[31;1m") (ESC ++ "[32;1m")
               (ESC ++ "[33;1m") (ESC ++ "[34;1m").

Definition noColors : AnsiColors := mkAnsiColors "" "" "" "" "".

(** The text left when the escape sequences [ESC ... m] are taken out. *)
Fixpoint stripEscapes (inEscape : bool) (s : string) : string :=
  match s with
  | "" => ""
  | String c rest =>
      if inEscape then stripEscapes (negb (Ascii.eqb c "m")) rest
      else if Ascii.eqb c (ascii_of_nat 27) then stripEscapes true rest
      else String c (stripEscapes false rest)
  end.

Definition visibleLength (s : string) : nat := String.length (stripEscapes false s).

(** ** showErrPos *)

Definition showErrPos (errPos : ErrPos) : string :=
  if line errPos >? 0 then
    if column errPos >? 0 then
      (* fmt("(%1%:%2%)", errPos.line, errPos.column) *)
      "(" ++ showInt (line errPos) ++ ":" ++ showInt (column errPos) ++ ")"
    else
      (* fmt("(%1%)", errPos.line) *)
      "(" ++ showInt (line errPos) ++ ")"
  else "".

(** The conversion of a [size_t] sum to [int]: reduction modulo 2^32 into
    the signed range. *)
Definition int_of_size_t (n : nat) : Z :=
  (Z.of_nat n + 2 ^ 31) mod 2 ^ 32 - 2 ^ 31.

(** ** getCodeLines *)

(** What the [try] block can throw: the [SysError] of a failed [open], and
    what [readLine] throws. All of it derives from [std::exception];
    [EndOfFile] is caught on its own. An exception carries the text its
    [what()] returns. For the classes of [BaseError] that text is
    [calcWhat()], the report of the error as [operator<<] renders it, and
    not the message the exception was built from; it depends on the
    constructors of [error.hh], which are not part of the sources. *)
Inductive Exception :=
| EndOfFile (what : string)
| SysError (what : string)
| OtherException (what : string).

Definition what (e : Exception) : string :=
  match e with
  | EndOfFile w => w
  | SysError w => w
  | OtherException w => w
  end.

(** What a call does: it returns, it leaves by an exception, or it has no
    defined behaviour. *)
Inductive Behaviour (A : Type) :=
| Defined (a : A)
| Raised (e : Exception)
| Undefined.
Arguments Defined {A} a.
Arguments Raised {A} e.
Arguments Undefined {A}.

(** Modelled from the spec: [open] and [readLine] ([util.cc]) are not part of
    the sources; the spec asks for the capability to open a file for reading,
    read one line at a time and detect the end of the stream. A descriptor is
    the lines the successive calls of [readLine] return, followed by the
    exception that ends the stream ([EndOfFile] at the end of the file). Which
    bytes of a file make up a line (a last line without line feed, say) is
    [readLine]'s business: the stream holds the lines as [getCodeLines]
    receives them. A failed [open] comes with the text [what()] returns for
    the [SysError] that line 68 throws for it. *)
Inductive OpenResult :=
| OpenFailed (what : string)
| Opened (stream : list string) (ending : Exception).

Definition FileSystem := string -> OpenResult.

Inductive Effect :=
| Open (path : string)
| ReadLine
| Close
| PrintError (msg : string).

(** Snippet, effects performed, exception still in flight. *)
Definition Run : Type := NixCode * list Effect * option Exception.

Definition setPrev (c : NixCode) (l : string) : NixCode :=
  mkNixCode (errPos c) (Some l) (errLineOfCode c) (nextLineOfCode c).
Definition setErr (c : NixCode) (l : string) : NixCode :=
  mkNixCode (errPos c) (prevLineOfCode c) (Some l) (nextLineOfCode c).
Definition setNext (c : NixCode) (l : string) : NixCode :=
  mkNixCode (errPos c) (prevLineOfCode c) (errLineOfCode c) (Some l).

Definition afterRead (r : Run) : Run :=
  let '(c, t, e) := r in (c, ReadLine :: t, e).

(** The [do ... while (true)] loop; [count] is the counter before [++count]. *)
Fixpoint readLoop (pl count : Z) (stream : list string) (ending : Exception)
    (nixCode : NixCode) : Run :=
  match stream with
  | [] => (nixCode, [ReadLine], Some ending)
  | text :: rest =>
      let count := count + 1 in
      if count <? pl then
        afterRead (readLoop pl count rest ending nixCode)
      else if count =? pl then
        afterRead (readLoop pl count rest ending (setPrev nixCode text))
      else if count =? pl + 1 then
        afterRead (readLoop pl count rest ending (setErr nixCode text))
      else if count =? pl + 2 then
        (setNext nixCode text, [ReadLine], None)
      else
        afterRead (readLoop pl count rest ending nixCode)
  end.

(** The body of the [try] block; the [AutoCloseFD] closes a valid
    descriptor when the block is left, also by an exception. *)
Definition tryBlock (fs : FileSystem) (nixCode : NixCode) : Run :=
  let path := file (errPos nixCode) in
  match fs path with
  | OpenFailed w =>
      (* throw SysError("opening file '%1%'", nixCode.errPos.file) *)
      (nixCode, [Open path], Some (SysError w))
  | Opened stream ending =>
      let pl := line (errPos nixCode) - 1 in
      let '(c, t, e) := readLoop pl 0 stream ending nixCode in
      (c, (Open path :: t ++ [Close])%list, e)
  end.

Definition getCodeLines (fs : FileSystem) (nixCode : NixCode) : Run :=
  if line (errPos nixCode) <=? 0 then (nixCode, [], None)
  else if String.eqb (file (errPos nixCode)) "(string)" then (nixCode, [], None)
  else
    let '(c, t, thrown) := tryBlock fs nixCode in
    match thrown with
    | None => (c, t, None)
    | Some (EndOfFile _) => (c, t, None)
    | Some e =>
        (* printError("error reading nix file: %s\n%s", nixCode.errPos.file, e.what()) *)
        (c, (t ++ [PrintError ("error reading nix file: " ++ file (errPos nixCode)
                                ++ endl ++ what e)])%list, None)
    end.

(** ** printCodeLines *)

(** [int] arithmetic on a line number: the sum or difference reduced modulo
    2^32 into the signed range, as the machine computes it. It differs from
    the exact result only for [line - 1] at the least and [line + 1] at the
    greatest [int], where the language leaves the overflow undefined. *)
Definition int_wrap (z : Z) : Z := (z + 2 ^ 31) mod 2 ^ 32 - 2 ^ 31.

(** fmt("%1% %|2$5d|| %3%", prefix, n, text) *)
Definition fmtCodeLine (prefix : string) (n : Z) (text : string) : string :=
  prefix ++ " " ++ setw 5 (showInt n) ++ "| " ++ text.

Section Rendering.
Context {V : VerbosityEnum} {C : AnsiColors}.

(** fmt("%1%      |%2%" ANSI_RED "%3%" ANSI_NORMAL, prefix, spaces, arrows) *)
Definition fmtArrowLine (prefix spaces arrows : string) : string :=
  prefix ++ "      |" ++ spaces ++ ANSI_RED ++ arrows ++ ANSI_NORMAL.

Definition printCodeLines (out prefix : string) (nixCode : NixCode) : string :=
  let out :=
    match prevLineOfCode nixCode with
    | Some l => out ++ fmtCodeLine prefix (int_wrap (line (errPos nixCode) - 1)) l ++ endl
    | None => out
    end in
  let out :=
    match errLineOfCode nixCode with
    | Some l =>
        let out := out ++ fmtCodeLine prefix (line (errPos nixCode)) l ++ endl in
        if column (errPos nixCode) >? 0 then
          let start := column (errPos nixCode) in
          let spaces := appendLoop start " " in
          let arrows := "^" in
          out ++ fmtArrowLine prefix spaces arrows ++ endl
        else out
    | None => out
    end in
  match nextLineOfCode nixCode with
  | Some l => out ++ fmtCodeLine prefix (int_wrap (line (errPos nixCode) + 1)) l ++ endl
  | None => out
  end.

(** ** operator<<(std::ostream &, const ErrorInfo &) *)

(** The [switch] over [einfo.level] (distinct case labels, so the order
    of the tests is immaterial). *)
Definition levelStringOf (lvl : Z) : string :=
  if lvl =? lvlError then ANSI_RED ++ "error:" ++ ANSI_NORMAL
  else if lvl =? lvlWarn then ANSI_YELLOW ++ "warning:" ++ ANSI_NORMAL
  else if lvl =? lvlInfo then ANSI_GREEN ++ "info:" ++ ANSI_NORMAL
  else if lvl =? lvlTalkative then ANSI_GREEN ++ "talk:" ++ ANSI_NORMAL
  else if lvl =? lvlChatty then ANSI_GREEN ++ "chat:" ++ ANSI_NORMAL
  else if lvl =? lvlVomit then ANSI_GREEN ++ "vomit:" ++ ANSI_NORMAL
  else if lvl =? lvlDebug then ANSI_YELLOW ++ "debug:" ++ ANSI_NORMAL
  else
    (* fmt("invalid error level: %1%", einfo.level) *)
    "invalid error level: " ++ showInt lvl.

Definition errwidth : Z := 80.

(** [int ndl = prefix.length() + levelString.length() + 3
               + einfo.name.length() + einfo.programName.value_or("").length()] *)
Definition ndlOf (prefix levelString : string) (einfo : ErrorInfo)
    (programName : option string) : Z :=
  int_of_size_t (String.length prefix + String.length levelString + 3
                 + String.length (name einfo)
                 + String.length (value_or programName ""))%nat.

Definition dashwidthOf (ndl : Z) : Z :=
  if ndl >? errwidth - 3 then 3 else errwidth - ndl.

(** The divider, lines 202-224. *)
Definition dividerLine (prefix : string) (einfo : ErrorInfo)
    (programName : option string) : string :=
  let levelString := levelStringOf (level einfo) in
  let ndl := ndlOf prefix levelString einfo programName in
  let dashwidth := dashwidthOf ndl in
  let dashes := appendLoop dashwidth "-" in
  if negb (String.eqb (name einfo) "") then
    (* fmt("%1%%2%" ANSI_BLUE " --- %3% %4% %5%" ANSI_NORMAL, ...) *)
    prefix ++ levelString ++ ANSI_BLUE ++ " --- " ++ name einfo ++ " "
      ++ dashes ++ " " ++ value_or programName "" ++ ANSI_NORMAL
  else
    (* fmt("%1%%2%" ANSI_BLUE " -----%3% %4%" ANSI_NORMAL, ...) *)
    prefix ++ levelString ++ ANSI_BLUE ++ " -----" ++ dashes ++ " "
      ++ value_or programName "" ++ ANSI_NORMAL.

(** Filename, line, column: lines 226-238. *)
Definition printPosition (out prefix : string) (einfo : ErrorInfo) : string :=
  match nixCode einfo with
  | Some c =>
      if negb (String.eqb (file (errPos c)) "") then
        (* fmt("%1%in file: " ANSI_BLUE "%2% %3%" ANSI_NORMAL, ...) *)
        out ++ (prefix ++ "in file: " ++ ANSI_BLUE ++ file (errPos c) ++ " "
                  ++ showErrPos (errPos c) ++ ANSI_NORMAL) ++ endl
            ++ prefix ++ endl
      else
        (* fmt("%1%from command line argument", prefix) *)
        out ++ (prefix ++ "from command line argument") ++ endl
            ++ prefix ++ endl
  | None => out
  end.

(** Description: lines 240-244. *)
Definition printDescription (out prefix : string) (einfo : ErrorInfo) : string :=
  if negb (String.eqb (description einfo) "") then
    out ++ prefix ++ description einfo ++ endl ++ prefix ++ endl
  else out.

(** Lines of code: lines 251-255, on the snippet [getCodeLines] left. *)
Definition printLinesOfCode (out prefix : string) (nixcode : NixCode) : string :=
  match errLineOfCode nixcode with
  | Some _ => printCodeLines out prefix nixcode ++ prefix ++ endl
  | None => out
  end.

(** Hint: lines 257-259; [*einfo.hint] is read whether or not the optional
    holds a value. *)
Definition printHint (out prefix : string) (einfo : ErrorInfo) : Behaviour string :=
  match hint einfo with
  | Some h => Defined (out ++ prefix ++ h ++ endl ++ prefix ++ endl)
  | None => Undefined
  end.

Definition operator_lshift (fs : FileSystem) (programName : option string)
    (out : string) (einfo : ErrorInfo) : Behaviour (string * list Effect) :=
  let prefix := "" in
  let out := out ++ dividerLine prefix einfo programName ++ endl in
  let out := printPosition out prefix einfo in
  let out := printDescription out prefix einfo in
  match nixCode einfo with
  | Some c =>
      let '(nixcode, effects, thrown) := getCodeLines fs c in
      match thrown with
      | Some e => Raised e
      | None =>
          let out := printLinesOfCode out prefix nixcode in
          match printHint out prefix einfo with
          | Defined out => Defined (out, effects)
          | Raised e => Raised e
          | Undefined => Undefined
          end
      end
  | None => Defined (out, [])
  end.

End Rendering.

(** ** Vocabulary of the statements *)

(** The line [readLine] returns when the counter of [getCodeLines] reaches
    [count] (the first call gives count 1). *)
Definition lineAt (stream : list string) (count : Z) : option string :=
  if count <? 1 then None else nth_error stream (Z.to_nat (count - 1)).

(** A field of the snippet after the loop: the line read for it, or what the
    field held before. *)
Definition keep (read before : option string) : option string :=
  match read with
  | Some l => Some l
  | None => before
  end.

(** The snippet a report starts from: a position and no line of code. *)
Definition absentSnippet (errPos : ErrPos) : NixCode :=
  mkNixCode errPos None None None.

(** Number of [readLine] calls for a stream and a target count. *)
Definition readsDone (stream : list string) (target : Z) : nat :=
  Z.to_nat (Z.min (target + 2) (Z.of_nat (List.length stream) + 1)).

Definition isEndOfFile (e : Exception) : bool :=
  match e with
  | EndOfFile _ => true
  | _ => false
  end.

(** What the catch clauses add to the trace for an exception. *)
Definition logged (path : string) (e : Exception) : list Effect :=
  if isEndOfFile e then []
  else [PrintError ("error reading nix file: " ++ path ++ endl ++ what e)].

(** The gutters: a numbered line and the arrow line up to their bar. *)
Definition numberGutter (prefix : string) (n : Z) : string :=
  prefix ++ " " ++ setw 5 (showInt n) ++ "|".

Definition arrowGutter (prefix : string) : string :=
  prefix ++ "      |".

(** Sample inputs. [sysErrorWhat] is the text of a [SysError] as
    [calcWhat] renders it without colours and program name: the divider with
    the name of the class. *)
Definition eof : Exception := EndOfFile "unexpected EOF reading a line".

Definition sysErrorWhat : string :=
  "error: --- SysError " ++ replicate 63 "-" ++ " " ++ endl.

Definition sampleFiles : FileSystem := fun path =>
  if String.eqb path "five.nix" then
    Opened ["one"; "two"; "three"; "four"; "five"] eof
  else if String.eqb path "two.nix" then Opened ["alpha"; "beta"] eof
  else if String.eqb path "one.nix" then Opened ["single"] eof
  else if String.eqb path "broken.nix" then
    Opened ["alpha"] (SysError sysErrorWhat)
  else OpenFailed sysErrorWhat.

(** A report with another hint. *)
Definition withHint (h : option string) (einfo : ErrorInfo) : ErrorInfo :=
  mkErrorInfo (level einfo) (name einfo) (description einfo) h (nixCode einfo).

(** Sample reports: an error located in a string source (scenario B), the
    same error with an empty file name, and an error without position. *)
Definition stringSourceReport {V : VerbosityEnum} : ErrorInfo :=
  mkErrorInfo lvlError "" "" (Some "hint")
    (Some (absentSnippet (mkErrPos 10 2 "(string)"))).

Definition emptyFileReport {V : VerbosityEnum} : ErrorInfo :=
  mkErrorInfo lvlError "" "" (Some "hint")
    (Some (absentSnippet (mkErrPos 10 2 ""))).

Definition hintlessReport {V : VerbosityEnum} : ErrorInfo :=
  mkErrorInfo lvlError "name" "description" None
    (Some (absentSnippet (mkErrPos 3 4 "five.nix"))).

Definition unlocatedReport {V : VerbosityEnum} : ErrorInfo :=
  mkErrorInfo lvlError "" "oops" (Some "try again") None.

Definition shortFileReport {V : VerbosityEnum} : ErrorInfo :=
  mkErrorInfo lvlError "name" "" (Some "hint")
    (Some (absentSnippet (mkErrPos 2 1 "one.nix"))).

Definition namedReport {V : VerbosityEnum} : ErrorInfo :=
  mkErrorInfo lvlError "name" "" None None.

(** Reading a decimal numeral back, to state that [showInt] prints the
    number it is given. *)
Definition digitValue (c : ascii) : Z := Z.of_nat (nat_of_ascii c) - 48.

Fixpoint readDigits (s : string) (acc : Z) : Z :=
  match s with
  | "" => acc
  | String c rest => readDigits rest (10 * acc + digitValue c)
  end.

Definition readInt (s : string) : Z :=
  match s with
  | "" => 0
  | String c rest =>
      if Ascii.eqb c "-" then - readDigits rest 0 else readDigits s 0
  end.

(** Text without escape character. *)
Fixpoint plain (s : string) : bool :=
  match s with
  | "" => true
  | String c rest => negb (Ascii.eqb c (ascii_of_nat 27)) && plain rest
  end.

(** The parts of a run of [getCodeLines]. *)
Definition snippetOf (r : Run) : NixCode := fst (fst r).

(** ** BaseError *)

(** Modelled from the spec: the class [BaseError] is declared in [error.hh],
    which is not part of the sources. The record holds the members
    [addPrefix] and [calcWhat] use: the prefix, the message computed once on
    first access and cached on the value, and the report; [sname] is the
    text the virtual [sname()] returns for the object. [what_] and [err] are
    [mutable], so [calcWhat] returns the object as it leaves it. *)
Record BaseError := mkBaseError
  { prefix_ : string;
    what_ : option string;
    err : ErrorInfo;
    sname : string }.

(** [prefix_ = fs.s + prefix_; return *this;] with [s] the text of [fs]. *)
Definition addPrefix (e : BaseError) (s : string) : BaseError :=
  mkBaseError (s ++ prefix_ e) (what_ e) (err e) (sname e).

(** [err.name = sname();] *)
Definition setName (n : string) (einfo : ErrorInfo) : ErrorInfo :=
  mkErrorInfo (level einfo) n (description einfo) (hint einfo) (nixCode einfo).

Section CalcWhat.
Context {V : VerbosityEnum} {C : AnsiColors}.

(** The text returned, the object afterwards, the system calls made. *)
Definition calcWhat (fs : FileSystem) (programName : option string) (e : BaseError)
  : Behaviour (string * BaseError * list Effect) :=
  match what_ e with
  | Some w => Defined (w, e, [])
  | None =>
      let err' := setName (sname e) (err e) in
      (* std::ostringstream oss; oss << err; what_ = oss.str(); *)
      match operator_lshift fs programName "" err' with
      | Defined (text, effects) =>
          Defined (text, mkBaseError (prefix_ e) (Some text) err' (sname e), effects)
      | Raised x => Raised x
      | Undefined => Undefined
      end
  end.

End CalcWhat.

(** The text of a call, when it has one. *)
Definition textOf {A B : Type} (r : Behaviour (string * A * B)) : option string :=
  match r with
  | Defined (text, _, _) => Some text
  | _ => None
  end.

(** Whether a character occurs in a text. *)
Fixpoint hasChar (c : ascii) (s : string) : bool :=
  match s with
  | "" => false
  | String x rest => Ascii.eqb x c || hasChar c rest
  end.

(** * Properties *)

(** ** Text lemmas *)

Lemma append_assoc (a b c : string) : (a ++ b) ++ c = a ++ (b ++ c).
Proof. induction a as [|x a IH]; simpl; [reflexivity | now rewrite IH]. Qed.

Lemma append_nil_r (a : string) : a ++ "" = a.
Proof. induction a as [|x a IH]; simpl; [reflexivity | now rewrite IH]. Qed.

(** Appends associated to the right, literal text pushed inward. *)
Ltac string_norm := repeat (rewrite ?append_assoc; cbn [append]).

Lemma length_append (a b : string) :
  String.length (a ++ b) = (String.length a + String.length b)%nat.
Proof. induction a as [|x a IH]; simpl; [reflexivity | now rewrite IH]. Qed.

Lemma length_replicate (n : nat) (c : ascii) :
  String.length (replicate n (String c "")) = n.
Proof. induction n as [|n IH]; simpl; [reflexivity | now rewrite IH]. Qed.

Lemma length_appendLoop (n : Z) (c : ascii) :
  Z.of_nat (String.length (appendLoop n (String c ""))) = Z.max 0 n.
Proof. unfold appendLoop. rewrite length_replicate. lia. Qed.

(** A number below [10 ^ k] prints in at most [k] digits. *)
Lemma length_showDigits (fuel : nat) :
  forall (k : nat) (n : Z) (acc : string),
    (1 <= k)%nat -> 0 <= n < 10 ^ Z.of_nat k ->
    (String.length (showDigits fuel n acc) <= String.length acc + k)%nat.
Proof.
  induction fuel as [|fuel IH]; intros k n acc Hk Hn; simpl; [lia|].
  destruct (n / 10 =? 0) eqn:Hq; simpl; [lia|].
  apply Z.eqb_neq in Hq.
  destruct k as [|[|k]]; [lia | |].
  - exfalso. apply Hq. apply Z.div_small. change (10 ^ Z.of_nat 1) with 10 in Hn. lia.
  - specialize (IH (S k) (n / 10) (String (digitChar (n mod 10)) acc)).
    simpl String.length in IH.
    assert (Hdiv : 0 <= n / 10 < 10 ^ Z.of_nat (S k)).
    { split; [apply Z.div_pos; lia|].
      apply Z.div_lt_upper_bound; [lia|].
      replace (Z.of_nat (S (S k))) with (Z.succ (Z.of_nat (S k))) in Hn by lia.
      rewrite Z.pow_succ_r in Hn by lia. lia. }
    specialize (IH ltac:(lia) Hdiv). lia.
Qed.

Lemma length_showInt_5 (n : Z) :
  -9999 <= n <= 99999 -> (String.length (showInt n) <= 5)%nat.
Proof.
  intros Hn. unfold showInt, showNonneg.
  destruct (n <? 0) eqn:Hneg.
  - apply Z.ltb_lt in Hneg. rewrite length_append.
    pose proof (length_showDigits (S (Z.to_nat (Z.log2 (- n)))) 4 (- n) "" ltac:(lia)) as H.
    change (10 ^ Z.of_nat 4) with 10000 in H. specialize (H ltac:(lia)).
    change (String.length "") with 0%nat in H.
    change (String.length "-") with 1%nat. lia.
  - apply Z.ltb_ge in Hneg.
    pose proof (length_showDigits (S (Z.to_nat (Z.log2 n))) 5 n "" ltac:(lia)) as H.
    change (10 ^ Z.of_nat 5) with 100000 in H. specialize (H ltac:(lia)).
    change (String.length "") with 0%nat in H. lia.
Qed.

(** *** [showInt] prints its argument in decimal *)

Lemma digitValue_digitChar (d : Z) : 0 <= d < 10 -> digitValue (digitChar d) = d.
Proof.
  intros Hd. unfold digitValue, digitChar.
  rewrite nat_ascii_embedding by lia. lia.
Qed.

Lemma digitChar_not_minus (d : Z) : 0 <= d < 10 -> Ascii.eqb (digitChar d) "-" = false.
Proof.
  intros Hd.
  assert (Hcases : d = 0 \/ d = 1 \/ d = 2 \/ d = 3 \/ d = 4 \/ d = 5 \/ d = 6
                   \/ d = 7 \/ d = 8 \/ d = 9) by lia.
  repeat destruct Hcases as [-> | Hcases]; try reflexivity. now subst.
Qed.

Lemma readDigits_showDigits (fuel : nat) :
  forall (n : Z) (acc : string),
    0 <= n < 10 ^ Z.of_nat fuel ->
    readDigits (showDigits fuel n acc) 0 = readDigits acc n.
Proof.
  induction fuel as [|fuel IH]; intros n acc Hn.
  - change (10 ^ Z.of_nat 0) with 1 in Hn. replace n with 0 by lia. reflexivity.
  - assert (Hpow : 10 ^ Z.of_nat (S fuel) = 10 * 10 ^ Z.of_nat fuel).
    { rewrite Nat2Z.inj_succ, Z.pow_succ_r by lia. reflexivity. }
    pose proof (Z.mod_pos_bound n 10 ltac:(lia)) as Hmod.
    pose proof (Z.div_mod n 10 ltac:(lia)) as Hdm.
    cbn [showDigits]. destruct (Z.eqb_spec (n / 10) 0) as [Hq|Hq].
    + cbn [readDigits]. rewrite digitValue_digitChar by lia. f_equal. lia.
    + rewrite IH.
      * cbn [readDigits]. rewrite digitValue_digitChar by lia. f_equal. lia.
      * split; [apply Z.div_pos; lia|]. apply Z.div_lt_upper_bound; lia.
Qed.

Lemma showDigits_head (fuel : nat) :
  forall (n : Z) (acc : string),
    0 <= n ->
    exists d rest, 0 <= d < 10 /\ showDigits (S fuel) n acc = String (digitChar d) rest.
Proof.
  induction fuel as [|fuel IH]; intros n acc Hn;
    pose proof (Z.mod_pos_bound n 10 ltac:(lia)) as Hmod.
  - exists (n mod 10), acc. split; [lia|].
    cbn [showDigits]. now destruct (n / 10 =? 0).
  - change (showDigits (S (S fuel)) n acc)
      with (let acc' := String (digitChar (n mod 10)) acc in
            if n / 10 =? 0 then acc' else showDigits (S fuel) (n / 10) acc').
    cbv zeta. destruct (n / 10 =? 0).
    + exists (n mod 10), acc. split; [lia | reflexivity].
    + apply IH. apply Z.div_pos; lia.
Qed.

Lemma fuel_suffices (n : Z) :
  0 <= n -> n < 10 ^ Z.of_nat (S (Z.to_nat (Z.log2 n))).
Proof.
  intros Hn.
  destruct (Z.eq_dec n 0) as [->|Hpos]; [reflexivity|].
  pose proof (Z.log2_nonneg n) as Hlog.
  pose proof (Z.log2_spec n ltac:(lia)) as [_ Hup].
  replace (Z.of_nat (S (Z.to_nat (Z.log2 n)))) with (Z.succ (Z.log2 n)) by lia.
  eapply Z.lt_le_trans; [exact Hup|].
  apply Z.pow_le_mono_l. lia.
Qed.

(** Reading back what [showInt] printed gives the number. *)
Lemma readInt_showInt (n : Z) : readInt (showInt n) = n.
Proof.
  unfold showInt, showNonneg. destruct (Z.ltb_spec n 0) as [Hneg|Hpos].
  - cbn [append readInt]. change (Ascii.eqb "-" "-") with true. cbv iota.
    rewrite readDigits_showDigits by (split; [lia | apply fuel_suffices; lia]).
    cbn [readDigits]. lia.
  - destruct (showDigits_head (Z.to_nat (Z.log2 n)) n "" Hpos) as (d & rest & Hd & E).
    unfold readInt. rewrite E, digitChar_not_minus by exact Hd. rewrite <- E.
    now rewrite readDigits_showDigits by (split; [lia | apply fuel_suffices; lia]).
Qed.

Lemma showInt_injective (n m : Z) : showInt n = showInt m -> n = m.
Proof.
  intros E. rewrite <- (readInt_showInt n), <- (readInt_showInt m). now rewrite E.
Qed.

(** *** The width of a printed number *)

Lemma length_showDigits_acc (fuel : nat) :
  forall (n : Z) (acc : string),
    (String.length acc <= String.length (showDigits fuel n acc))%nat.
Proof.
  induction fuel as [|fuel IH]; intros n acc; cbn [showDigits]; [lia|].
  destruct (n / 10 =? 0); [cbn [String.length]; lia|].
  specialize (IH (n / 10) (String (digitChar (n mod 10)) acc)).
  cbn [String.length] in IH. lia.
Qed.

(** A number of at least [10 ^ (k - 1)] prints in at least [k] digits. *)
Lemma length_showDigits_lower (fuel : nat) :
  forall (k : nat) (n : Z) (acc : string),
    (1 <= k <= fuel)%nat -> 10 ^ (Z.of_nat k - 1) <= n ->
    (String.length acc + k <= String.length (showDigits fuel n acc))%nat.
Proof.
  induction fuel as [|fuel IH]; intros k n acc Hk Hn; [lia|].
  cbn [showDigits].
  destruct k as [|[|k]]; [lia | |].
  - destruct (n / 10 =? 0); [cbn [String.length]; lia|].
    pose proof (length_showDigits_acc fuel (n / 10) (String (digitChar (n mod 10)) acc)) as H.
    cbn [String.length] in H. lia.
  - assert (Hq : 10 ^ (Z.of_nat (S k) - 1) <= n / 10).
    { apply Z.div_le_lower_bound; [lia|].
      replace (Z.of_nat (S (S k)) - 1) with (Z.succ (Z.of_nat (S k) - 1)) in Hn by lia.
      rewrite Z.pow_succ_r in Hn by lia. exact Hn. }
    assert (0 < 10 ^ (Z.of_nat (S k) - 1)) by (apply Z.pow_pos_nonneg; lia).
    destruct (Z.eqb_spec (n / 10) 0) as [E|_]; [lia|].
    specialize (IH (S k) (n / 10) (String (digitChar (n mod 10)) acc) ltac:(lia) Hq).
    cbn [String.length] in IH. lia.
Qed.

Lemma length_showInt_6 (n : Z) :
  n < -9999 \/ 99999 < n -> (6 <= String.length (showInt n))%nat.
Proof.
  intros Hn. unfold showInt, showNonneg.
  destruct (Z.ltb_spec n 0) as [Hneg|Hpos].
  - rewrite length_append. change (String.length "-") with 1%nat.
    assert (Hlog : Z.log2 10000 <= Z.log2 (- n)) by (apply Z.log2_le_mono; lia).
    change (Z.log2 10000) with 13 in Hlog.
    pose proof (length_showDigits_lower (S (Z.to_nat (Z.log2 (- n)))) 5 (- n) ""
                  ltac:(lia) ltac:(change (10 ^ (Z.of_nat 5 - 1)) with 10000; lia)) as H.
    change (String.length "") with 0%nat in H. lia.
  - assert (Hlog : Z.log2 100000 <= Z.log2 n) by (apply Z.log2_le_mono; lia).
    change (Z.log2 100000) with 16 in Hlog.
    pose proof (length_showDigits_lower (S (Z.to_nat (Z.log2 n))) 6 n ""
                  ltac:(lia) ltac:(change (10 ^ (Z.of_nat 6 - 1)) with 100000; lia)) as H.
    change (String.length "") with 0%nat in H. lia.
Qed.

Lemma length_setw (w : nat) (s : string) :
  String.length (setw w s) = Nat.max w (String.length s).
Proof. unfold setw. rewrite length_append, length_replicate. lia. Qed.

Example showInt_samples :
  (showInt 0, showInt 7, showInt 10, showInt 99999, showInt 100000,
   showInt (-42), showInt 2147483647)
  = ("0", "7", "10", "99999", "100000", "-42", "2147483647").
Proof. reflexivity. Qed.

(** ** showErrPos *)

(** C9. [showErrPos] yields "(line:column)" when line and column are both
    positive, "(line)" when only the line is, and the empty text when the line
    is not positive. *)
Theorem showErrPos_cases (errPos : ErrPos) :
  (line errPos > 0 -> column errPos > 0 ->
     showErrPos errPos
     = "(" ++ showInt (line errPos) ++ ":" ++ showInt (column errPos) ++ ")")
  /\ (line errPos > 0 -> column errPos <= 0 ->
     showErrPos errPos = "(" ++ showInt (line errPos) ++ ")")
  /\ (line errPos <= 0 -> showErrPos errPos = "").
Proof.
  unfold showErrPos. repeat split; intros.
  - replace (line errPos >? 0) with true by (symmetry; apply Z.gtb_lt; lia).
    replace (column errPos >? 0) with true by (symmetry; apply Z.gtb_lt; lia).
    reflexivity.
  - replace (line errPos >? 0) with true by (symmetry; apply Z.gtb_lt; lia).
    destruct (column errPos >? 0) eqn:Hc; [apply Z.gtb_lt in Hc; lia | reflexivity].
  - destruct (line errPos >? 0) eqn:Hl; [apply Z.gtb_lt in Hl; lia | reflexivity].
Qed.

Lemma showErrPos_cases_witness :
  showErrPos (mkErrPos 10 2 "default.nix") = "(10:2)"
  /\ showErrPos (mkErrPos 10 0 "default.nix") = "(10)"
  /\ showErrPos (mkErrPos 0 5 "default.nix") = "".
Proof.
  split; [|split].
  - apply (showErrPos_cases (mkErrPos 10 2 "default.nix")); simpl; lia.
  - apply (showErrPos_cases (mkErrPos 10 0 "default.nix")); simpl; lia.
  - apply (showErrPos_cases (mkErrPos 0 5 "default.nix")); simpl; lia.
Defined.

(** ** getCodeLines *)

Ltac zcases :=
  repeat match goal with
  | |- context [?a <? ?b] =>
      let H := fresh "H" in destruct (a <? b) eqn:H;
      [apply Z.ltb_lt in H | apply Z.ltb_ge in H]; try lia
  | |- context [?a =? ?b] =>
      let H := fresh "H" in destruct (a =? b) eqn:H;
      [apply Z.eqb_eq in H | apply Z.eqb_neq in H]; try lia
  | |- context [?a <=? ?b] =>
      let H := fresh "H" in destruct (a <=? b) eqn:H;
      [apply Z.leb_le in H | apply Z.leb_gt in H]; try lia
  | |- context [?a >? ?b] =>
      let H := fresh "H" in destruct (a >? b) eqn:H;
      [apply Z.gtb_lt in H | rewrite Z.gtb_ltb in H; apply Z.ltb_ge in H]; try lia
  end.

Lemma NixCode_eta (c : NixCode) :
  mkNixCode (errPos c) (prevLineOfCode c) (errLineOfCode c) (nextLineOfCode c) = c.
Proof. now destruct c. Qed.

(** The loop, started [d] counts before the error line's predecessor is
    due: the three fields receive the lines at offsets [d - 1], [d] and
    [d + 1] of the remaining stream, as far as the stream reaches. *)
Lemma readLoop_from (ending : Exception) (stream : list string) :
  forall (d : nat) (pl count : Z) (c : NixCode),
    pl - count = Z.of_nat d ->
    readLoop pl count stream ending c
    = (mkNixCode (errPos c)
         (keep (match d with O => None | S d' => nth_error stream d' end)
               (prevLineOfCode c))
         (keep (nth_error stream d) (errLineOfCode c))
         (keep (nth_error stream (S d)) (nextLineOfCode c)),
       repeat ReadLine (Nat.min (S (S d)) (S (List.length stream))),
       if (List.length stream <? S (S d))%nat then Some ending else None).
Proof.
  induction stream as [|text rest IH]; intros d pl count c Hd.
  - simpl. rewrite !nth_error_nil. destruct d as [|d'];
      [|rewrite nth_error_nil]; simpl; now rewrite NixCode_eta.
  - destruct d as [|[|d]].
    + (* the error line is the next one read *)
      cbn [readLoop]. zcases.
      destruct rest as [|text2 rest]; cbn [readLoop].
      * reflexivity.
      * zcases. reflexivity.
    + (* the previous line is the next one read *)
      cbn [readLoop]. zcases.
      rewrite (IH 0%nat) by lia. reflexivity.
    + cbn [readLoop]. zcases.
      rewrite (IH (S d)) by lia. reflexivity.
Qed.

Lemma lineAt_target (stream : list string) (t : Z) :
  0 <= t ->
  lineAt stream t
  = match Z.to_nat t with O => None | S d' => nth_error stream d' end.
Proof.
  intros Ht. unfold lineAt. zcases.
  - replace t with 0 by lia. reflexivity.
  - destruct (Z.to_nat t) as [|d'] eqn:Hd; [lia|].
    f_equal. lia.
Qed.

Lemma lineAt_error (stream : list string) (t : Z) :
  0 <= t -> lineAt stream (t + 1) = nth_error stream (Z.to_nat t).
Proof. intros Ht. unfold lineAt. zcases. f_equal. lia. Qed.

Lemma lineAt_next (stream : list string) (t : Z) :
  0 <= t -> lineAt stream (t + 2) = nth_error stream (S (Z.to_nat t)).
Proof. intros Ht. unfold lineAt. zcases. f_equal. lia. Qed.

Lemma keep_absent (read : option string) : keep read None = read.
Proof. now destruct read. Qed.

Lemma readsDone_min (stream : list string) (t : Z) :
  0 <= t ->
  Nat.min (S (S (Z.to_nat t))) (S (List.length stream)) = readsDone stream t.
Proof. intros Ht. unfold readsDone. lia. Qed.

(** [getCodeLines] on a file that opens: the fields, the system calls and
    the log, whatever ends the stream. *)
Lemma getCodeLines_opened (fs : FileSystem) (c : NixCode)
    (stream : list string) (ending : Exception) :
  line (errPos c) > 0 ->
  file (errPos c) <> "(string)" ->
  fs (file (errPos c)) = Opened stream ending ->
  let target := line (errPos c) - 1 in
  getCodeLines fs c
  = (mkNixCode (errPos c)
       (keep (lineAt stream target) (prevLineOfCode c))
       (keep (lineAt stream (target + 1)) (errLineOfCode c))
       (keep (lineAt stream (target + 2)) (nextLineOfCode c)),
     (Open (file (errPos c)) :: repeat ReadLine (readsDone stream target) ++ [Close])
       ++ (if Z.of_nat (List.length stream) <? target + 2
           then logged (file (errPos c)) ending else []),
     None)%list.
Proof.
  intros Hline Hfile Hfs target. subst target.
  unfold getCodeLines, tryBlock.
  destruct (line (errPos c) <=? 0) eqn:Hle; [apply Z.leb_le in Hle; lia|].
  destruct (String.eqb_spec (file (errPos c)) "(string)") as [Heq|_]; [contradiction|].
  rewrite Hfs.
  rewrite (readLoop_from ending stream (Z.to_nat (line (errPos c) - 1))) by lia.
  rewrite (lineAt_target stream (line (errPos c) - 1)) by lia.
  rewrite (lineAt_error stream (line (errPos c) - 1)) by lia.
  rewrite (lineAt_next stream (line (errPos c) - 1)) by lia.
  rewrite readsDone_min by lia.
  destruct (Nat.ltb_spec (List.length stream) (S (S (Z.to_nat (line (errPos c) - 1)))))
    as [Hshort|Hlong].
  - replace (Z.of_nat (List.length stream) <? line (errPos c) - 1 + 2) with true
      by (symmetry; apply Z.ltb_lt; lia).
    unfold logged. destruct ending; reflexivity || (cbn [isEndOfFile]; now rewrite app_nil_r).
  - replace (Z.of_nat (List.length stream) <? line (errPos c) - 1 + 2) with false
      by (symmetry; apply Z.ltb_ge; lia).
    now rewrite app_nil_r.
Qed.

(** C6. On a file that opens and reads to its end, for a position with a
    positive line and a file other than "(string)", the extractor counts the
    lines from 1, stores the line at count [line - 1] as previous line, at
    [line] as error line and at [line + 1] as next line, and reads no
    further; at the end of the file the fields reached so far stay set and the
    others stay as they were (absent, for a snippet that started absent). *)
Theorem getCodeLines_readable (fs : FileSystem) (c : NixCode)
    (stream : list string) (w : string) :
  line (errPos c) > 0 ->
  file (errPos c) <> "(string)" ->
  fs (file (errPos c)) = Opened stream (EndOfFile w) ->
  let target := line (errPos c) - 1 in
  getCodeLines fs c
  = (mkNixCode (errPos c)
       (keep (lineAt stream target) (prevLineOfCode c))
       (keep (lineAt stream (target + 1)) (errLineOfCode c))
       (keep (lineAt stream (target + 2)) (nextLineOfCode c)),
     Open (file (errPos c)) :: repeat ReadLine (readsDone stream target) ++ [Close],
     None)%list
  /\ getCodeLines fs (absentSnippet (errPos c))
  = (mkNixCode (errPos c)
       (lineAt stream target)
       (lineAt stream (target + 1))
       (lineAt stream (target + 2)),
     Open (file (errPos c)) :: repeat ReadLine (readsDone stream target) ++ [Close],
     None)%list.
Proof.
  intros Hline Hfile Hfs target. split.
  - rewrite (getCodeLines_opened fs c stream (EndOfFile w) Hline Hfile Hfs).
    fold target. unfold logged. cbn [isEndOfFile].
    destruct (Z.of_nat (List.length stream) <? target + 2); now rewrite app_nil_r.
  - rewrite (getCodeLines_opened fs (absentSnippet (errPos c)) stream (EndOfFile w)
               Hline Hfile Hfs).
    cbn [absentSnippet errPos prevLineOfCode errLineOfCode nextLineOfCode].
    fold target. rewrite !keep_absent. unfold logged. cbn [isEndOfFile].
    destruct (Z.of_nat (List.length stream) <? target + 2); now rewrite app_nil_r.
Qed.

(** Scenario C: a file of two lines, position at line 2. *)
Lemma getCodeLines_readable_witness :
  getCodeLines sampleFiles (absentSnippet (mkErrPos 2 1 "two.nix"))
  = (mkNixCode (mkErrPos 2 1 "two.nix") (Some "alpha") (Some "beta") None,
     [Open "two.nix"; ReadLine; ReadLine; ReadLine; Close], None).
Proof.
  apply (getCodeLines_readable sampleFiles (absentSnippet (mkErrPos 2 1 "two.nix"))
           ["alpha"; "beta"] "unexpected EOF reading a line").
  - simpl. lia.
  - simpl. discriminate.
  - reflexivity.
Defined.

Lemma getCodeLines_skips (fs : FileSystem) (c : NixCode) :
  line (errPos c) <= 0 \/ file (errPos c) = "(string)" ->
  getCodeLines fs c = (c, [], None).
Proof.
  intros [Hline|Hfile]; unfold getCodeLines.
  - now replace (line (errPos c) <=? 0) with true by (symmetry; apply Z.leb_le; lia).
  - rewrite Hfile. now destruct (line (errPos c) <=? 0).
Qed.

Lemma getCodeLines_open_failed (fs : FileSystem) (c : NixCode) (w : string) :
  line (errPos c) > 0 ->
  file (errPos c) <> "(string)" ->
  fs (file (errPos c)) = OpenFailed w ->
  getCodeLines fs c
  = (c, [Open (file (errPos c));
         PrintError ("error reading nix file: " ++ file (errPos c) ++ endl ++ w)],
     None).
Proof.
  intros Hline Hfile Hfs. unfold getCodeLines, tryBlock.
  destruct (line (errPos c) <=? 0) eqn:Hle; [apply Z.leb_le in Hle; lia|].
  destruct (String.eqb_spec (file (errPos c)) "(string)") as [Heq|_]; [contradiction|].
  now rewrite Hfs.
Qed.

Lemma getCodeLines_returns (fs : FileSystem) (c : NixCode) :
  exists c' t, getCodeLines fs c = (c', t, None).
Proof.
  unfold getCodeLines.
  destruct (line (errPos c) <=? 0); [now eauto|].
  destruct (String.eqb (file (errPos c)) "(string)"); [now eauto|].
  destruct (tryBlock fs c) as [[c' t] [[w|w|w]|]]; eauto.
Qed.

(** C7. [getCodeLines] never leaves by an exception. For a position whose
    line is not positive or whose file is "(string)" it returns the snippet
    as it came (all lines absent for a snippet that started absent) and
    performs no system call. When [open] fails it logs with [printError] and
    returns the snippet unchanged; when [readLine] fails other than by the end
    of the file it logs and returns the lines collected before the failure.
    What is logged is the file name and, on the next line, the text [what()]
    returns for the exception. *)
Theorem getCodeLines_absorbs_failure (fs : FileSystem) (c : NixCode) :
  (exists c' t, getCodeLines fs c = (c', t, None))
  /\ (line (errPos c) <= 0 \/ file (errPos c) = "(string)" ->
      getCodeLines fs c = (c, [], None)
      /\ getCodeLines fs (absentSnippet (errPos c)) = (absentSnippet (errPos c), [], None))
  /\ (forall w : string,
      line (errPos c) > 0 -> file (errPos c) <> "(string)" ->
      fs (file (errPos c)) = OpenFailed w ->
      getCodeLines fs c
      = (c, [Open (file (errPos c));
             PrintError ("error reading nix file: " ++ file (errPos c) ++ endl ++ w)],
         None))
  /\ (forall (stream : list string) (e : Exception),
      line (errPos c) > 0 -> file (errPos c) <> "(string)" ->
      fs (file (errPos c)) = Opened stream e ->
      isEndOfFile e = false ->
      Z.of_nat (List.length stream) < line (errPos c) + 1 ->
      let target := line (errPos c) - 1 in
      getCodeLines fs c
      = (mkNixCode (errPos c)
           (keep (lineAt stream target) (prevLineOfCode c))
           (keep (lineAt stream (target + 1)) (errLineOfCode c))
           (keep (lineAt stream (target + 2)) (nextLineOfCode c)),
         Open (file (errPos c))
           :: repeat ReadLine (S (List.length stream))
           ++ [Close;
               PrintError ("error reading nix file: " ++ file (errPos c) ++ endl
                           ++ what e)],
         None)%list).
Proof.
  split; [apply getCodeLines_returns|].
  split; [intros H; split; [now apply getCodeLines_skips|]
         |split; [intros w; apply getCodeLines_open_failed|]].
  - apply getCodeLines_skips. exact H.
  - intros stream e Hline Hfile Hfs He Hshort target.
    rewrite (getCodeLines_opened fs c stream e Hline Hfile Hfs). fold target.
    replace (Z.of_nat (List.length stream) <? target + 2) with true
      by (symmetry; apply Z.ltb_lt; subst target; lia).
    unfold logged. rewrite He.
    replace (readsDone stream target) with (S (List.length stream))
      by (unfold readsDone; subst target; lia).
    cbn [app]. now rewrite <- app_assoc.
Qed.

Lemma getCodeLines_absorbs_failure_witness :
  (* line <= 0 *)
  getCodeLines sampleFiles (absentSnippet (mkErrPos 0 0 "two.nix"))
  = (absentSnippet (mkErrPos 0 0 "two.nix"), [], None)
  (* the file "(string)" *)
  /\ getCodeLines sampleFiles (absentSnippet (mkErrPos 10 2 "(string)"))
  = (absentSnippet (mkErrPos 10 2 "(string)"), [], None)
  (* open fails *)
  /\ getCodeLines sampleFiles (absentSnippet (mkErrPos 3 1 "missing.nix"))
  = (absentSnippet (mkErrPos 3 1 "missing.nix"),
     [Open "missing.nix";
      PrintError ("error reading nix file: missing.nix" ++ endl ++ sysErrorWhat)], None)
  (* readLine fails after the first line *)
  /\ getCodeLines sampleFiles (absentSnippet (mkErrPos 2 1 "broken.nix"))
  = (mkNixCode (mkErrPos 2 1 "broken.nix") (Some "alpha") None None,
     [Open "broken.nix"; ReadLine; ReadLine; Close;
      PrintError ("error reading nix file: broken.nix" ++ endl ++ sysErrorWhat)],
     None).
Proof.
  split; [|split; [|split]].
  - apply (getCodeLines_absorbs_failure sampleFiles (absentSnippet (mkErrPos 0 0 "two.nix"))).
    left. simpl. lia.
  - apply (getCodeLines_absorbs_failure sampleFiles (absentSnippet (mkErrPos 10 2 "(string)"))).
    right. reflexivity.
  - apply (proj1 (proj2 (proj2 (getCodeLines_absorbs_failure sampleFiles
                                  (absentSnippet (mkErrPos 3 1 "missing.nix")))))
             sysErrorWhat);
      [simpl; lia | simpl; discriminate | reflexivity].
  - apply (proj2 (proj2 (proj2 (getCodeLines_absorbs_failure sampleFiles
                                  (absentSnippet (mkErrPos 2 1 "broken.nix")))))
             ["alpha"] (SysError sysErrorWhat));
      [simpl; lia | simpl; discriminate | reflexivity | reflexivity | simpl; lia].
Defined.

(** ** The severity table *)

Section Severity.
Context {V : VerbosityEnum} {C : AnsiColors}.

Lemma enumerators_distinct :
  NoDup enumerators ->
  lvlError <> lvlWarn /\ lvlError <> lvlInfo /\ lvlError <> lvlTalkative
  /\ lvlError <> lvlChatty /\ lvlError <> lvlVomit /\ lvlError <> lvlDebug
  /\ lvlWarn <> lvlInfo /\ lvlWarn <> lvlTalkative /\ lvlWarn <> lvlChatty
  /\ lvlWarn <> lvlVomit /\ lvlWarn <> lvlDebug
  /\ lvlInfo <> lvlTalkative /\ lvlInfo <> lvlChatty /\ lvlInfo <> lvlVomit
  /\ lvlInfo <> lvlDebug
  /\ lvlTalkative <> lvlChatty /\ lvlTalkative <> lvlVomit /\ lvlTalkative <> lvlDebug
  /\ lvlChatty <> lvlVomit /\ lvlChatty <> lvlDebug
  /\ lvlVomit <> lvlDebug.
Proof.
  unfold enumerators. intros H.
  repeat match goal with
         | H : NoDup (_ :: _) |- _ => inversion_clear H
         end.
  cbn [In] in *. intuition congruence.
Qed.

(** C8. The severity table is total: each of the seven enumerators has
    its fixed label and colour, and a level that is none of them is rendered
    as "invalid error level: N", with N the number. *)
Theorem levelStringOf_total :
  NoDup enumerators ->
  levelStringOf lvlError = ANSI_RED ++ "error:" ++ ANSI_NORMAL
  /\ levelStringOf lvlWarn = ANSI_YELLOW ++ "warning:" ++ ANSI_NORMAL
  /\ levelStringOf lvlInfo = ANSI_GREEN ++ "info:" ++ ANSI_NORMAL
  /\ levelStringOf lvlTalkative = ANSI_GREEN ++ "talk:" ++ ANSI_NORMAL
  /\ levelStringOf lvlChatty = ANSI_GREEN ++ "chat:" ++ ANSI_NORMAL
  /\ levelStringOf lvlVomit = ANSI_GREEN ++ "vomit:" ++ ANSI_NORMAL
  /\ levelStringOf lvlDebug = ANSI_YELLOW ++ "debug:" ++ ANSI_NORMAL
  /\ forall n : Z, ~ In n enumerators ->
       levelStringOf n = "invalid error level: " ++ showInt n.
Proof.
  intros Hd. apply enumerators_distinct in Hd.
  decompose [and] Hd. clear Hd.
  repeat split; try (intros n Hn; unfold enumerators in Hn; cbn [In] in Hn);
    unfold levelStringOf;
    repeat match goal with
           | |- context [?a =? ?b] =>
               let E := fresh "E" in
               destruct (Z.eqb_spec a b) as [E|E];
               try congruence; try (exfalso; intuition congruence)
           end;
    try reflexivity.
Qed.

End Severity.

Lemma switchOrder_distinct : NoDup (enumerators (V := switchOrder)).
Proof.
  unfold enumerators. cbn.
  repeat (constructor; [cbn [In]; intuition discriminate|]). constructor.
Defined.

Lemma levelStringOf_total_witness :
  levelStringOf (V := switchOrder) (C := noColors) 0 = "error:"
  /\ levelStringOf (V := switchOrder) (C := noColors) 6 = "debug:"
  /\ levelStringOf (V := switchOrder) (C := noColors) 7 = "invalid error level: 7"
  /\ levelStringOf (V := switchOrder) (C := noColors) (-1) = "invalid error level: -1".
Proof.
  pose proof (levelStringOf_total (V := switchOrder) (C := noColors) switchOrder_distinct)
    as (E0 & _ & _ & _ & _ & _ & E6 & Eother).
  split; [exact E0|]. split; [exact E6|].
  split; apply Eother; unfold enumerators; cbn; intuition discriminate.
Defined.

(** ** printCodeLines *)

Lemma fmtCodeLine_gutter (prefix : string) (n : Z) (text : string) :
  fmtCodeLine prefix n text = numberGutter prefix n ++ " " ++ text.
Proof.
  unfold fmtCodeLine, numberGutter. now rewrite !append_assoc.
Qed.

(** Inside the range of [int] the arithmetic is exact. *)
Lemma int_wrap_exact (z : Z) : - 2 ^ 31 <= z < 2 ^ 31 -> int_wrap z = z.
Proof.
  intros Hz. unfold int_wrap. rewrite Z.mod_small; lia.
Qed.

Lemma length_arrowGutter (prefix : string) :
  String.length (arrowGutter prefix) = (String.length prefix + 7)%nat.
Proof. unfold arrowGutter. now rewrite length_append. Qed.

Lemma length_numberGutter (prefix : string) (n : Z) :
  String.length (numberGutter prefix n)
  = (String.length prefix + 2 + Nat.max 5 (String.length (showInt n)))%nat.
Proof.
  unfold numberGutter. rewrite !length_append, length_setw.
  change (String.length " ") with 1%nat. change (String.length "|") with 1%nat. lia.
Qed.

Section Snippet.
Context {V : VerbosityEnum} {C : AnsiColors}.

Lemma fmtArrowLine_gutter (prefix spaces arrows : string) :
  fmtArrowLine prefix spaces arrows
  = arrowGutter prefix ++ spaces ++ ANSI_RED ++ arrows ++ ANSI_NORMAL.
Proof. unfold fmtArrowLine, arrowGutter. now rewrite !append_assoc. Qed.

(** [printCodeLines] itself has no such guard: called on a snippet with
    only a previous line it prints that line. *)
Lemma printCodeLines_previous_only (out prefix l : string) (errPos : ErrPos) :
  printCodeLines out prefix (mkNixCode errPos (Some l) None None)
  = out ++ fmtCodeLine prefix (int_wrap (line errPos - 1)) l ++ endl.
Proof. reflexivity. Qed.

(** The two gutters agree for every line number of at most five
    characters. *)
Lemma gutters_agree (prefix : string) (n : Z) :
  -9999 <= n <= 99999 ->
  String.length (numberGutter prefix n) = String.length (arrowGutter prefix).
Proof.
  intros Hn. rewrite length_numberGutter, length_arrowGutter.
  pose proof (length_showInt_5 n Hn). lia.
Qed.

Lemma gutters_agree_iff (prefix : string) (n : Z) :
  String.length (numberGutter prefix n) = String.length (arrowGutter prefix)
  <-> -9999 <= n <= 99999.
Proof.
  split; [|apply gutters_agree].
  intros H. rewrite length_numberGutter, length_arrowGutter in H.
  destruct (Z_le_dec (-9999) n) as [Hlo|Hlo];
    [destruct (Z_le_dec n 99999) as [Hhi|Hhi]; [lia|]|];
    pose proof (length_showInt_6 n ltac:(lia)); lia.
Qed.

Lemma printCodeLines_layout (out prefix : string) (c : NixCode) (e : string) :
  errLineOfCode c = Some e ->
  column (errPos c) > 0 ->
  printCodeLines out prefix c
  = (match prevLineOfCode c with
     | Some l =>
         out ++ numberGutter prefix (int_wrap (line (errPos c) - 1)) ++ " " ++ l ++ endl
     | None => out
     end)
      ++ (numberGutter prefix (line (errPos c)) ++ " " ++ e) ++ endl
      ++ (arrowGutter prefix ++ replicate (Z.to_nat (column (errPos c))) " "
            ++ ANSI_RED ++ "^" ++ ANSI_NORMAL) ++ endl
      ++ (match nextLineOfCode c with
          | Some l =>
              numberGutter prefix (int_wrap (line (errPos c) + 1)) ++ " " ++ l ++ endl
          | None => ""
          end).
Proof.
  intros He Hc. unfold printCodeLines. rewrite He.
  replace (column (errPos c) >? 0) with true by (symmetry; apply Z.gtb_lt; lia).
  rewrite !fmtCodeLine_gutter, fmtArrowLine_gutter. unfold appendLoop.
  destruct (prevLineOfCode c), (nextLineOfCode c);
    rewrite ?fmtCodeLine_gutter, ?append_assoc, ?append_nil_r; reflexivity.
Qed.

End Snippet.

Section Alignment.
Context {V : VerbosityEnum} {C : AnsiColors}.

(** C5, amended. For a snippet with its error line, a positive column and a
    line number of at most five characters (-9999 to 99999), the arrow
    line's gutter is as wide as the gutter of the numbered error line, and
    the arrow follows it after [column] spaces. A position at line 3,
    column 4 of a file of five lines is rendered as the numbered lines 2, 3
    and 4, the arrow four characters past the gutter. *)
Theorem arrow_gutter_alignment (prefix : string) :
  (forall (out : string) (c : NixCode) (e : string),
      errLineOfCode c = Some e ->
      column (errPos c) > 0 ->
      -9999 <= line (errPos c) <= 99999 ->
      printCodeLines out prefix c
      = (match prevLineOfCode c with
         | Some l => out ++ numberGutter prefix (line (errPos c) - 1) ++ " " ++ l ++ endl
         | None => out
         end)
          ++ (numberGutter prefix (line (errPos c)) ++ " " ++ e) ++ endl
          ++ (arrowGutter prefix ++ replicate (Z.to_nat (column (errPos c))) " "
                ++ ANSI_RED ++ "^" ++ ANSI_NORMAL) ++ endl
          ++ (match nextLineOfCode c with
              | Some l => numberGutter prefix (line (errPos c) + 1) ++ " " ++ l ++ endl
              | None => ""
              end)
      /\ String.length (numberGutter prefix (line (errPos c)))
         = String.length (arrowGutter prefix))
  /\ (forall n : Z,
      String.length (numberGutter prefix n) = String.length (arrowGutter prefix)
      <-> -9999 <= n <= 99999)
  /\ (forall (fs : FileSystem) (path l1 l2 l3 l4 l5 w : string),
      path <> "(string)" ->
      fs path = Opened [l1; l2; l3; l4; l5] (EndOfFile w) ->
      getCodeLines fs (absentSnippet (mkErrPos 3 4 path))
      = (mkNixCode (mkErrPos 3 4 path) (Some l2) (Some l3) (Some l4),
         [Open path; ReadLine; ReadLine; ReadLine; ReadLine; Close], None)
      /\ printCodeLines "" prefix (mkNixCode (mkErrPos 3 4 path) (Some l2) (Some l3) (Some l4))
         = (numberGutter prefix 2 ++ " " ++ l2) ++ endl
           ++ (numberGutter prefix 3 ++ " " ++ l3) ++ endl
           ++ (arrowGutter prefix ++ "    " ++ ANSI_RED ++ "^" ++ ANSI_NORMAL) ++ endl
           ++ (numberGutter prefix 4 ++ " " ++ l4) ++ endl
      /\ String.length (numberGutter prefix 2) = String.length (arrowGutter prefix)
      /\ String.length (numberGutter prefix 3) = String.length (arrowGutter prefix)
      /\ String.length (numberGutter prefix 4) = String.length (arrowGutter prefix)).
Proof.
  split; [|split].
  - intros out c e He Hc Hl. split.
    + rewrite (printCodeLines_layout out prefix c e He Hc).
      now rewrite !int_wrap_exact by lia.
    + now apply gutters_agree.
  - intros n. apply gutters_agree_iff.
  - intros fs path l1 l2 l3 l4 l5 w Hpath Hfs.
    split; [|split; [|repeat split; apply gutters_agree; lia]].
    + rewrite (getCodeLines_opened fs (absentSnippet (mkErrPos 3 4 path))
                 [l1; l2; l3; l4; l5] (EndOfFile w));
        [reflexivity | simpl; lia | exact Hpath | exact Hfs].
    + rewrite (printCodeLines_layout "" prefix _ l3); [|reflexivity | simpl; lia].
      cbn [prevLineOfCode nextLineOfCode errPos line column].
      change (int_wrap (3 - 1)) with 2. change (int_wrap (3 + 1)) with 4.
      change (replicate (Z.to_nat 4) " ") with "    ".
      now string_norm.
Qed.

End Alignment.

(** With a line number of six digits the numbered line's bar stands one
    column to the right of the arrow line's bar. *)
Lemma arrow_gutter_misaligned :
  let c := mkNixCode (mkErrPos 100000 4 "all-packages.nix") None (Some "x") None in
  errLineOfCode c = Some "x"
  /\ column (errPos c) > 0
  /\ printCodeLines (C := noColors) "" "" c
     = " 100000| x" ++ endl ++ "      |    ^" ++ endl
  /\ String.length (numberGutter "" (line (errPos c))) = 8%nat
  /\ String.length (arrowGutter "") = 7%nat
  /\ String.length (numberGutter "" (line (errPos c))) <> String.length (arrowGutter "").
Proof.
  cbv zeta. repeat split; try reflexivity; try discriminate.
Qed.

Lemma arrow_gutter_alignment_witness :
  printCodeLines (C := noColors) "" ""
    (mkNixCode (mkErrPos 3 4 "five.nix") (Some "two") (Some "three") (Some "four"))
  = "     2| two" ++ endl
    ++ "     3| three" ++ endl
    ++ "      |    ^" ++ endl
    ++ "     4| four" ++ endl
  /\ String.length (numberGutter "" 3) = String.length (arrowGutter "")
  /\ getCodeLines sampleFiles (absentSnippet (mkErrPos 3 4 "five.nix"))
     = (mkNixCode (mkErrPos 3 4 "five.nix") (Some "two") (Some "three") (Some "four"),
        [Open "five.nix"; ReadLine; ReadLine; ReadLine; ReadLine; Close], None).
Proof.
  destruct (arrow_gutter_alignment (C := noColors) "") as (Hline & _ & Hfile).
  destruct (Hline ""
              (mkNixCode (mkErrPos 3 4 "five.nix") (Some "two") (Some "three") (Some "four"))
              "three" eq_refl ltac:(simpl; lia) ltac:(simpl; lia)) as [Hprint Hwidth].
  split; [rewrite Hprint; reflexivity|]. split; [exact Hwidth|].
  apply (Hfile sampleFiles "five.nix" "one" "two" "three" "four" "five"
           "unexpected EOF reading a line" ltac:(discriminate) eq_refl).
Defined.

(** A snippet with a previous line and no error line arises from a file of
    one line and a position at line 2. *)
Example getCodeLines_previous_only :
  getCodeLines sampleFiles (absentSnippet (mkErrPos 2 1 "one.nix"))
  = (mkNixCode (mkErrPos 2 1 "one.nix") (Some "single") None None,
     [Open "one.nix"; ReadLine; ReadLine; Close], None).
Proof. reflexivity. Qed.

(** ** The report *)

Section Report.
Context {V : VerbosityEnum} {C : AnsiColors}.

Lemma withHint_divider (h : option string) (einfo : ErrorInfo)
    (prefix : string) (programName : option string) :
  dividerLine prefix (withHint h einfo) programName
  = dividerLine prefix einfo programName.
Proof. reflexivity. Qed.

Lemma operator_lshift_no_position (fs : FileSystem) (programName : option string)
    (out : string) (einfo : ErrorInfo) :
  nixCode einfo = None ->
  operator_lshift fs programName out einfo
  = Defined (printDescription (out ++ dividerLine "" einfo programName ++ endl) "" einfo,
             []).
Proof.
  intros H. unfold operator_lshift, printPosition. now rewrite H.
Qed.

(** C10. Without a position the report is the divider and the
    description: it holds no hint, whatever hint the report carries. *)
Theorem hint_needs_position (fs : FileSystem) (programName : option string)
    (out : string) (einfo : ErrorInfo) :
  nixCode einfo = None ->
  operator_lshift fs programName out einfo
  = Defined (out ++ dividerLine "" einfo programName ++ endl
               ++ (if String.eqb (description einfo) "" then ""
                   else description einfo ++ endl ++ endl),
             [])
  /\ forall h : option string,
      operator_lshift fs programName out (withHint h einfo)
      = operator_lshift fs programName out einfo.
Proof.
  intros H. split.
  - rewrite operator_lshift_no_position by exact H.
    unfold printDescription.
    destruct (String.eqb (description einfo) ""); cbn [negb];
      string_norm; now rewrite ?append_nil_r.
  - intros h. now rewrite !operator_lshift_no_position by exact H.
Qed.

(** C2, as the code has it. With a position and no hint the report reads
    through the empty optional: the call has no defined result. *)
Theorem absent_hint_undefined (fs : FileSystem) (programName : option string)
    (out : string) (einfo : ErrorInfo) (c : NixCode) :
  nixCode einfo = Some c ->
  hint einfo = None ->
  operator_lshift fs programName out einfo = Undefined.
Proof.
  intros Hc Hh. unfold operator_lshift, printHint. rewrite Hc, Hh.
  destruct (getCodeLines_returns fs c) as (c' & t & E). now rewrite E.
Qed.

(** In every other case the report is written. *)
Lemma operator_lshift_defined (fs : FileSystem) (programName : option string)
    (out : string) (einfo : ErrorInfo) :
  nixCode einfo = None \/ hint einfo <> None ->
  exists text t, operator_lshift fs programName out einfo = Defined (text, t).
Proof.
  intros [Hc|Hh].
  - rewrite operator_lshift_no_position by exact Hc. eauto.
  - unfold operator_lshift, printHint.
    destruct (nixCode einfo) as [c|]; [|eauto].
    destruct (getCodeLines_returns fs c) as (c' & t & E). rewrite E.
    destruct (hint einfo); [eauto | contradiction].
Qed.

(** A snippet left without error line by [getCodeLines] shows in no line
    of the report. *)
Lemma operator_lshift_without_errLine (fs : FileSystem) (programName : option string)
    (out h : string) (einfo : ErrorInfo) (c nixcode : NixCode) (t : list Effect) :
  nixCode einfo = Some c ->
  hint einfo = Some h ->
  getCodeLines fs c = (nixcode, t, None) ->
  errLineOfCode nixcode = None ->
  operator_lshift fs programName out einfo
  = Defined (printDescription
               (printPosition (out ++ dividerLine "" einfo programName ++ endl) "" einfo)
               "" einfo ++ h ++ endl ++ endl, t).
Proof.
  intros Hc Hh Hget Herr. unfold operator_lshift, printHint, printLinesOfCode.
  now rewrite Hc, Hget, Herr, Hh.
Qed.

End Report.

Lemma hint_needs_position_witness :
  operator_lshift (V := switchOrder) (C := noColors) sampleFiles None ""
    (unlocatedReport (V := switchOrder))
  = Defined ("error: ---------------------------------------------------------------------------- "
               ++ endl ++ "oops" ++ endl ++ endl, []).
Proof.
  destruct (hint_needs_position (V := switchOrder) (C := noColors)
              sampleFiles None ""
    (unlocatedReport (V := switchOrder)) eq_refl) as [H _].
  rewrite H. reflexivity.
Defined.

Lemma absent_hint_undefined_witness :
  operator_lshift (V := switchOrder) (C := sgrColors) sampleFiles (Some "nix") ""
    (hintlessReport (V := switchOrder))
  = Undefined.
Proof.
  apply (absent_hint_undefined (V := switchOrder) (C := sgrColors) sampleFiles (Some "nix") ""
           hintlessReport (absentSnippet (mkErrPos 3 4 "five.nix")));
    reflexivity.
Defined.

(** ** The position line and the file read *)

Section StringSource.
Context {V : VerbosityEnum} {C : AnsiColors}.

Lemma printPosition_named_file (out prefix : string) (einfo : ErrorInfo) (c : NixCode) :
  nixCode einfo = Some c ->
  file (errPos c) <> "" ->
  printPosition out prefix einfo
  = out ++ (prefix ++ "in file: " ++ ANSI_BLUE ++ file (errPos c) ++ " "
              ++ showErrPos (errPos c) ++ ANSI_NORMAL) ++ endl ++ prefix ++ endl.
Proof.
  intros Hc Hf. unfold printPosition. rewrite Hc.
  destruct (String.eqb_spec (file (errPos c)) ""); [contradiction | reflexivity].
Qed.

Lemma printPosition_empty_file (out prefix : string) (einfo : ErrorInfo) (c : NixCode) :
  nixCode einfo = Some c ->
  file (errPos c) = "" ->
  printPosition out prefix einfo
  = out ++ (prefix ++ "from command line argument") ++ endl ++ prefix ++ endl.
Proof.
  intros Hc Hf. unfold printPosition. now rewrite Hc, Hf.
Qed.

(** Any other file of a position with a positive line is opened. *)
Lemma getCodeLines_opens (fs : FileSystem) (c : NixCode) :
  line (errPos c) > 0 ->
  file (errPos c) <> "(string)" ->
  exists c' t, getCodeLines fs c = (c', Open (file (errPos c)) :: t, None).
Proof.
  intros Hline Hfile.
  destruct (fs (file (errPos c))) as [w|stream ending] eqn:Hfs.
  - rewrite (getCodeLines_open_failed fs c w Hline Hfile Hfs). eauto.
  - rewrite (getCodeLines_opened fs c stream ending Hline Hfile Hfs).
    cbn [app]. eauto.
Qed.

(** Scenario B and its twin with an empty file name, evaluated. A position
    in "(string)" is announced with "in file:", and its file is not read; a
    position with the empty file name is announced with "from command line
    argument", and the extractor tries to open that file. *)
Lemma string_source_reports (fs : FileSystem) (programName : option string) :
  operator_lshift fs programName "" stringSourceReport
  = Defined (dividerLine "" stringSourceReport programName ++ endl
               ++ "in file: " ++ ANSI_BLUE ++ "(string) (10:2)" ++ ANSI_NORMAL ++ endl
               ++ endl
               ++ "hint" ++ endl
               ++ endl,
             [])
  /\ operator_lshift sampleFiles programName "" emptyFileReport
  = Defined (dividerLine "" emptyFileReport programName ++ endl
               ++ "from command line argument" ++ endl
               ++ endl
               ++ "hint" ++ endl
               ++ endl,
             [Open "";
              PrintError ("error reading nix file: " ++ endl ++ sysErrorWhat)]).
Proof.
  split.
  - unfold operator_lshift.
    set (divider := dividerLine "" stringSourceReport programName).
    rewrite (printPosition_named_file _ _ _ (absentSnippet (mkErrPos 10 2 "(string)")))
      by (reflexivity || discriminate).
    unfold printDescription, printLinesOfCode, printHint.
    cbn [stringSourceReport nixCode description hint String.eqb negb].
    rewrite getCodeLines_skips by (right; reflexivity).
    cbn [absentSnippet errLineOfCode errPos file].
    change (showErrPos (mkErrPos 10 2 "(string)")) with "(10:2)".
    f_equal. f_equal. now string_norm.
  - unfold operator_lshift.
    set (divider := dividerLine "" emptyFileReport programName).
    rewrite (printPosition_empty_file _ _ _ (absentSnippet (mkErrPos 10 2 "")))
      by reflexivity.
    unfold printDescription, printLinesOfCode, printHint.
    cbn [emptyFileReport nixCode description hint String.eqb negb].
    rewrite (getCodeLines_open_failed sampleFiles _ sysErrorWhat)
      by (reflexivity || (simpl; lia) || discriminate).
    cbn [absentSnippet errLineOfCode errPos file].
    f_equal. f_equal; try reflexivity; now string_norm.
Qed.

End StringSource.

(** Scenario B: the report of a position in "(string)" has the "in file:"
    line and not the line "from command line argument"; no file is read. *)
Lemma string_source_in_file :
  nixCode (stringSourceReport (V := switchOrder))
  = Some (absentSnippet (mkErrPos 10 2 "(string)"))
  /\ printPosition (C := noColors) "" "" (stringSourceReport (V := switchOrder))
     = "in file: (string) (10:2)" ++ endl ++ endl
  /\ printPosition (C := noColors) "" "" (stringSourceReport (V := switchOrder))
     <> "from command line argument" ++ endl ++ endl
  /\ operator_lshift (V := switchOrder) (C := noColors) sampleFiles None ""
       (stringSourceReport (V := switchOrder))
     = Defined ("error: ---------------------------------------------------------------------------- "
                  ++ endl ++ "in file: (string) (10:2)" ++ endl ++ endl
                  ++ "hint" ++ endl ++ endl, []).
Proof.
  split; [reflexivity|]. split; [reflexivity|]. split; [discriminate | reflexivity].
Qed.

(** ** The divider *)

Section Divider.
Context {V : VerbosityEnum} {C : AnsiColors}.

Lemma dashwidthOf_at_least_3 (ndl : Z) : 3 <= dashwidthOf ndl.
Proof. unfold dashwidthOf, errwidth. zcases. Qed.

Lemma int_of_size_t_small (n : nat) :
  Z.of_nat n < 2 ^ 31 -> int_of_size_t n = Z.of_nat n.
Proof.
  intros H. unfold int_of_size_t.
  rewrite Z.mod_small; lia.
Qed.

(** [used] is the count the code takes: the label with its escape
    sequences, the constant 3, the name and the program name. Up to 77 the
    line is 84 characters long besides the escape sequences around the
    dashes. *)
Lemma dividerLine_raw_length (prefix : string) (einfo : ErrorInfo)
    (programName : option string) :
  let used := (String.length prefix + String.length (levelStringOf (level einfo)) + 3
               + String.length (name einfo)
               + String.length (value_or programName ""))%nat in
  Z.of_nat used < 2 ^ 31 ->
  (77 < Z.of_nat used ->
     dashwidthOf (ndlOf prefix (levelStringOf (level einfo)) einfo programName) = 3)
  /\ (Z.of_nat used <= 77 ->
      dashwidthOf (ndlOf prefix (levelStringOf (level einfo)) einfo programName)
      = 80 - Z.of_nat used
      /\ String.length (dividerLine prefix einfo programName)
         = (84 + String.length ANSI_BLUE + String.length ANSI_NORMAL)%nat).
Proof.
  intros used Hint.
  assert (Hndl : ndlOf prefix (levelStringOf (level einfo)) einfo programName
                 = Z.of_nat used).
  { unfold ndlOf. fold used. now apply int_of_size_t_small. }
  split; [intros Hlong | intros Hshort; split].
  - rewrite Hndl. unfold dashwidthOf, errwidth. zcases.
  - rewrite Hndl. unfold dashwidthOf, errwidth. zcases.
  - unfold dividerLine. rewrite Hndl.
    assert (Hdash : dashwidthOf (Z.of_nat used) = 80 - Z.of_nat used)
      by (unfold dashwidthOf, errwidth; zcases).
    rewrite Hdash.
    pose proof (length_appendLoop (80 - Z.of_nat used) "-") as Hd.
    destruct (String.eqb_spec (name einfo) "") as [Hname|Hname]; cbn [negb];
      rewrite !length_append;
      change (String.length " --- ") with 5%nat;
      change (String.length " -----") with 6%nat;
      change (String.length " ") with 1%nat.
    + assert (String.length (name einfo) = 0%nat) by now rewrite Hname.
      subst used. lia.
    + subst used. lia.
Qed.

End Divider.

(** *** The visible width with the SGR escape sequences *)

Lemma stripEscapes_plain (a b : string) :
  plain a = true -> stripEscapes false (a ++ b) = a ++ stripEscapes false b.
Proof.
  induction a as [|x a IH]; intros Hp; [reflexivity|].
  cbn [plain] in Hp. apply andb_true_iff in Hp as [Hx Ha].
  cbn [append stripEscapes]. apply negb_true_iff in Hx. rewrite Hx.
  now rewrite IH.
Qed.

Lemma plain_replicate (n : nat) (c : ascii) :
  Ascii.eqb c (ascii_of_nat 27) = false -> plain (replicate n (String c "")) = true.
Proof.
  intros Hc. induction n as [|n IH]; [reflexivity|].
  cbn [replicate append plain]. now rewrite Hc, IH.
Qed.

Section VisibleWidth.
Context {V : VerbosityEnum}.
#[local] Existing Instance sgrColors.

(** A label of the table is its text between a colour of seven characters
    and the reset of four. *)
Lemma levelStringOf_sgr (lvl : Z) :
  In lvl enumerators ->
  exists text : string,
    (forall rest : string,
        stripEscapes false (levelStringOf (C := sgrColors) lvl ++ rest)
        = text ++ stripEscapes false rest)
    /\ String.length (levelStringOf (C := sgrColors) lvl)
       = (String.length text + 11)%nat.
Proof.
  intros Hin. unfold enumerators in Hin. cbn [In] in Hin. unfold levelStringOf.
  destruct (Z.eqb_spec lvl lvlError);
    [exists "error:"; split; [intros rest; reflexivity | reflexivity]|].
  destruct (Z.eqb_spec lvl lvlWarn);
    [exists "warning:"; split; [intros rest; reflexivity | reflexivity]|].
  destruct (Z.eqb_spec lvl lvlInfo);
    [exists "info:"; split; [intros rest; reflexivity | reflexivity]|].
  destruct (Z.eqb_spec lvl lvlTalkative);
    [exists "talk:"; split; [intros rest; reflexivity | reflexivity]|].
  destruct (Z.eqb_spec lvl lvlChatty);
    [exists "chat:"; split; [intros rest; reflexivity | reflexivity]|].
  destruct (Z.eqb_spec lvl lvlVomit);
    [exists "vomit:"; split; [intros rest; reflexivity | reflexivity]|].
  destruct (Z.eqb_spec lvl lvlDebug);
    [exists "debug:"; split; [intros rest; reflexivity | reflexivity]|].
  exfalso. intuition congruence.
Qed.

Lemma dividerLine_visible_sgr (einfo : ErrorInfo) (programName : option string) :
  let used := (String.length (levelStringOf (C := sgrColors) (level einfo)) + 3
               + String.length (name einfo)
               + String.length (value_or programName ""))%nat in
  In (level einfo) enumerators ->
  plain (name einfo) = true ->
  plain (value_or programName "") = true ->
  Z.of_nat used <= 77 ->
  visibleLength (dividerLine (C := sgrColors) "" einfo programName) = 73%nat.
Proof.
  intros used Hin Hname Hprog Hused.
  destruct (levelStringOf_sgr (level einfo) Hin) as (text & Hstrip & Hlen).
  assert (Hndl : ndlOf "" (levelStringOf (C := sgrColors) (level einfo))
                   einfo programName = Z.of_nat used).
  { unfold ndlOf. cbn [String.length Nat.add]. fold used.
    apply int_of_size_t_small. lia. }
  assert (Hdash : dashwidthOf (Z.of_nat used) = 80 - Z.of_nat used)
    by (unfold dashwidthOf, errwidth; zcases).
  pose proof (length_appendLoop (80 - Z.of_nat used) "-") as Hd.
  pose proof (plain_replicate (Z.to_nat (80 - Z.of_nat used)) "-" eq_refl) as Hplain.
  fold (appendLoop (80 - Z.of_nat used) "-") in Hplain.
  unfold visibleLength, dividerLine. rewrite Hndl, Hdash.
  destruct (String.eqb_spec (name einfo) "") as [Hempty|Hnonempty]; cbn [negb];
    change ("" ++ levelStringOf (level einfo) ++ ?r)
      with (levelStringOf (level einfo) ++ r);
    rewrite Hstrip.
  - change (stripEscapes false (ANSI_BLUE ++ ?r)) with (stripEscapes false r).
    rewrite (stripEscapes_plain " -----") by reflexivity.
    rewrite (stripEscapes_plain (appendLoop _ _)) by exact Hplain.
    rewrite (stripEscapes_plain " ") by reflexivity.
    rewrite (stripEscapes_plain (value_or programName "")) by exact Hprog.
    change (stripEscapes false ANSI_NORMAL) with "".
    rewrite !length_append.
    change (String.length " -----") with 6%nat.
    change (String.length " ") with 1%nat. change (String.length "") with 0%nat.
    assert (String.length (name einfo) = 0%nat) by now rewrite Hempty.
    subst used. lia.
  - change (stripEscapes false (ANSI_BLUE ++ ?r)) with (stripEscapes false r).
    rewrite (stripEscapes_plain " --- ") by reflexivity.
    rewrite (stripEscapes_plain (name einfo)) by exact Hname.
    rewrite (stripEscapes_plain " ") by reflexivity.
    rewrite (stripEscapes_plain (appendLoop _ _)) by exact Hplain.
    rewrite (stripEscapes_plain " ") by reflexivity.
    rewrite (stripEscapes_plain (value_or programName "")) by exact Hprog.
    change (stripEscapes false ANSI_NORMAL) with "".
    rewrite !length_append.
    change (String.length " --- ") with 5%nat.
    change (String.length " ") with 1%nat. change (String.length "") with 0%nat.
    subst used. lia.
Qed.

End VisibleWidth.

(** C3, as the code has it. [used] is the count the code takes: the label
    with its escape sequences, the constant 3, the name and the program
    name. Above 77 the divider has three dashes. Up to 77 it has
    [80 - used] dashes, and the line is 84 characters long besides the escape
    sequences around the dashes, not 80: the fixed punctuation takes 7
    characters where the count allows 3, and the escape sequences of the
    label are counted as if they were printed. With the SGR colours a label
    of the table carries 11 such characters and 73 columns are visible;
    without colours all 84 are. *)
Theorem dividerLine_width {V : VerbosityEnum} (einfo : ErrorInfo)
    (programName : option string) :
  (forall (C : AnsiColors) (prefix : string),
      let used := (String.length prefix + String.length (levelStringOf (level einfo)) + 3
                   + String.length (name einfo)
                   + String.length (value_or programName ""))%nat in
      Z.of_nat used < 2 ^ 31 ->
      (77 < Z.of_nat used ->
         dashwidthOf (ndlOf prefix (levelStringOf (level einfo)) einfo programName) = 3)
      /\ (Z.of_nat used <= 77 ->
          dashwidthOf (ndlOf prefix (levelStringOf (level einfo)) einfo programName)
          = 80 - Z.of_nat used
          /\ String.length (dividerLine prefix einfo programName)
             = (84 + String.length ANSI_BLUE + String.length ANSI_NORMAL)%nat))
  /\ (Z.of_nat (String.length (levelStringOf (C := noColors) (level einfo)) + 3
                + String.length (name einfo)
                + String.length (value_or programName "")) <= 77 ->
      String.length (dividerLine (C := noColors) "" einfo programName) = 84%nat)
  /\ (In (level einfo) enumerators ->
      plain (name einfo) = true ->
      plain (value_or programName "") = true ->
      Z.of_nat (String.length (levelStringOf (C := sgrColors) (level einfo)) + 3
                + String.length (name einfo)
                + String.length (value_or programName "")) <= 77 ->
      visibleLength (dividerLine (C := sgrColors) "" einfo programName) = 73%nat).
Proof.
  split; [|split].
  - intros C prefix used Hint. now apply dividerLine_raw_length.
  - intros Hused.
    pose proof (dividerLine_raw_length (C := noColors) "" einfo programName) as H.
    cbv zeta in H. cbn [String.length Nat.add] in H.
    destruct (H ltac:(lia)) as [_ Hshort]. now destruct (Hshort Hused) as [_ Hlen].
  - intros Hin Hname Hprog Hused. now apply dividerLine_visible_sgr.
Qed.

(** The failing input of C3: an error named "name", program "prog". *)
Lemma dividerLine_width_witness :
  String.length (dividerLine (V := switchOrder) (C := noColors) ""
                   (namedReport (V := switchOrder)) (Some "prog"))
  = 84%nat
  /\ visibleLength (dividerLine (V := switchOrder) (C := sgrColors) ""
                      (namedReport (V := switchOrder)) (Some "prog"))
     = 73%nat.
Proof.
  destruct (dividerLine_width (V := switchOrder) (namedReport (V := switchOrder))
              (Some "prog")) as (_ & Hplain & Hsgr).
  split.
  - apply Hplain. simpl. lia.
  - apply Hsgr; [left; reflexivity | reflexivity | reflexivity | simpl; lia].
Defined.

Example dividerLine_visible :
  dividerLine (V := switchOrder) (C := noColors) "" (namedReport (V := switchOrder)) (Some "prog")
  = "error: --- name --------------------------------------------------------------- prog"
  /\ stripEscapes false
       (dividerLine (V := switchOrder) (C := sgrColors) ""
          (namedReport (V := switchOrder)) (Some "prog"))
     = "error: --- name ---------------------------------------------------- prog".
Proof. repeat split. Qed.

(** * Further properties of the extractor *)

Lemma keep_present (read before : option string) :
  before <> None -> keep read before <> None.
Proof. destruct read; [discriminate | trivial]. Qed.

Lemma keep_keep (read before : option string) :
  keep read (keep read before) = keep read before.
Proof. now destruct read. Qed.

(** The three cases of a call. *)
Lemma getCodeLines_cases (fs : FileSystem) (c : NixCode) :
  ((line (errPos c) <= 0 \/ file (errPos c) = "(string)")
   /\ getCodeLines fs c = (c, [], None))
  \/ (line (errPos c) > 0 /\ file (errPos c) <> "(string)"
      /\ exists w : string,
           fs (file (errPos c)) = OpenFailed w
           /\ getCodeLines fs c
              = (c, [Open (file (errPos c));
                     PrintError ("error reading nix file: " ++ file (errPos c) ++ endl ++ w)],
                 None))
  \/ (exists (stream : list string) (ending : Exception),
        line (errPos c) > 0 /\ file (errPos c) <> "(string)"
        /\ fs (file (errPos c)) = Opened stream ending
        /\ getCodeLines fs c
           = (mkNixCode (errPos c)
                (keep (lineAt stream (line (errPos c) - 1)) (prevLineOfCode c))
                (keep (lineAt stream (line (errPos c) - 1 + 1)) (errLineOfCode c))
                (keep (lineAt stream (line (errPos c) - 1 + 2)) (nextLineOfCode c)),
              (Open (file (errPos c))
                 :: repeat ReadLine (readsDone stream (line (errPos c) - 1)) ++ [Close])
                ++ (if Z.of_nat (List.length stream) <? line (errPos c) - 1 + 2
                    then logged (file (errPos c)) ending else []),
              None)%list).
Proof.
  destruct (Z_le_dec (line (errPos c)) 0) as [Hle|Hgt].
  - left. split; [now left | apply getCodeLines_skips; now left].
  - destruct (string_dec (file (errPos c)) "(string)") as [Hs|Hs].
    + left. split; [now right | apply getCodeLines_skips; now right].
    + destruct (fs (file (errPos c))) as [w|stream ending] eqn:Hfs.
      * right. left. split; [lia|]. split; [assumption|]. exists w. split; [reflexivity|].
        apply getCodeLines_open_failed; [lia | assumption | assumption].
      * right. right. exists stream, ending. repeat split; try lia; try assumption.
        apply (getCodeLines_opened fs c stream ending); [lia | assumption | assumption].
Qed.

(** X1. Whatever the file system does, the extractor leaves the position
    of the snippet alone and never clears a line the snippet already held. *)
Theorem getCodeLines_preserves (fs : FileSystem) (c : NixCode) :
  errPos (snippetOf (getCodeLines fs c)) = errPos c
  /\ (prevLineOfCode c <> None -> prevLineOfCode (snippetOf (getCodeLines fs c)) <> None)
  /\ (errLineOfCode c <> None -> errLineOfCode (snippetOf (getCodeLines fs c)) <> None)
  /\ (nextLineOfCode c <> None -> nextLineOfCode (snippetOf (getCodeLines fs c)) <> None).
Proof.
  destruct (getCodeLines_cases fs c)
    as [[_ E] | [(_ & _ & w & _ & E) | (stream & ending & _ & _ & _ & E)]];
    rewrite E; cbn [snippetOf fst errPos prevLineOfCode errLineOfCode nextLineOfCode];
    repeat split; trivial; apply keep_present.
Qed.

Lemma getCodeLines_preserves_witness :
  errPos
    (snippetOf (getCodeLines sampleFiles
                  (mkNixCode (mkErrPos 7 1 "two.nix") None (Some "given") None)))
  = mkErrPos 7 1 "two.nix"
  /\ errLineOfCode
       (snippetOf (getCodeLines sampleFiles
                     (mkNixCode (mkErrPos 7 1 "two.nix") None (Some "given") None)))
     <> None.
Proof.
  destruct (getCodeLines_preserves sampleFiles
              (mkNixCode (mkErrPos 7 1 "two.nix") None (Some "given") None))
    as (Hpos & _ & Herr & _).
  split; [exact Hpos | apply Herr; discriminate].
Defined.


(** X3. Extracting again, from the snippet a first extraction returned and
    on the same files, performs the same calls and changes nothing. *)
Theorem getCodeLines_idempotent (fs : FileSystem) (c : NixCode) :
  getCodeLines fs (snippetOf (getCodeLines fs c)) = getCodeLines fs c.
Proof.
  destruct (getCodeLines_cases fs c)
    as [[H E] | [(Hl & Hf & w & Hfs & E) | (stream & ending & Hl & Hf & Hfs & E)]];
    rewrite E; cbn [snippetOf fst]; [exact E | exact E |].
  set (c' := mkNixCode _ _ _ _).
  rewrite (getCodeLines_opened fs c' stream ending Hl Hf Hfs).
  subst c'. cbn [errPos prevLineOfCode errLineOfCode nextLineOfCode file line].
  now rewrite !keep_keep.
Qed.

Lemma lineAt_earlier (stream : list string) (k : Z) :
  1 <= k -> lineAt stream (k + 1) <> None -> lineAt stream k <> None.
Proof.
  unfold lineAt. intros Hk. zcases. rewrite !nth_error_Some. lia.
Qed.

Lemma lineAt_first (stream : list string) (k : Z) :
  k <= 0 -> lineAt stream k = None.
Proof. intros Hk. unfold lineAt. zcases. reflexivity. Qed.

(** X4. Starting from a snippet without lines, the extractor delivers an
    error line exactly when the line is positive, the file is not "(string)",
    the file opens and [readLine] returns at least [line] lines; the error
    line is then the [line]-th of them. *)
Theorem getCodeLines_errLine_iff (fs : FileSystem) (pos : ErrPos) (l : string) :
  errLineOfCode (snippetOf (getCodeLines fs (absentSnippet pos))) = Some l
  <-> line pos > 0 /\ file pos <> "(string)"
      /\ exists (stream : list string) (ending : Exception),
           fs (file pos) = Opened stream ending
           /\ nth_error stream (Z.to_nat (line pos - 1)) = Some l.
Proof.
  destruct (getCodeLines_cases fs (absentSnippet pos))
    as [[H E] | [(Hl & Hf & w & Hfs & E) | (stream & ending & Hl & Hf & Hfs & E)]];
    rewrite E; cbn [snippetOf fst absentSnippet errLineOfCode errPos] in *.
  - split; [discriminate|]. intros (Hl & Hf & _). destruct H; [lia | contradiction].
  - split; [discriminate|]. intros (_ & _ & stream & ending & Hfs' & _). congruence.
  - rewrite keep_absent, lineAt_error by lia. split.
    + intros Hn. repeat split; try assumption. eauto.
    + intros (_ & _ & stream' & ending' & Hfs' & Hn). congruence.
Qed.

Lemma getCodeLines_errLine_iff_witness :
  errLineOfCode (snippetOf (getCodeLines sampleFiles (absentSnippet (mkErrPos 2 1 "two.nix"))))
  = Some "beta".
Proof.
  apply (getCodeLines_errLine_iff sampleFiles (mkErrPos 2 1 "two.nix") "beta").
  split; [simpl; lia|]. split; [simpl; discriminate|].
  exists ["alpha"; "beta"], eof. split; reflexivity.
Defined.

(** X5. Starting from a snippet without lines, the lines are found from
    the top down, whatever the file system does: a next line comes with an
    error line, and an error line with a previous line unless the position is
    on line 1, where there is never a previous line. *)
Theorem getCodeLines_top_down (fs : FileSystem) (pos : ErrPos) :
  let s := snippetOf (getCodeLines fs (absentSnippet pos)) in
  (nextLineOfCode s <> None -> errLineOfCode s <> None)
  /\ (errLineOfCode s <> None -> line pos = 1 \/ prevLineOfCode s <> None)
  /\ (line pos <= 1 -> prevLineOfCode s = None).
Proof.
  cbv zeta.
  destruct (getCodeLines_cases fs (absentSnippet pos))
    as [[H E] | [(Hl & Hf & w & Hfs & E) | (stream & ending & Hl & Hf & Hfs & E)]];
    rewrite E;
    cbn [snippetOf fst absentSnippet errLineOfCode prevLineOfCode nextLineOfCode errPos] in *;
    try (repeat split; intros; trivial; congruence).
  rewrite !keep_absent. repeat split.
  - replace (line pos - 1 + 2) with (line pos - 1 + 1 + 1) by lia.
    apply lineAt_earlier. lia.
  - intros He. destruct (Z.eq_dec (line pos) 1) as [H1|H1]; [now left | right].
    apply lineAt_earlier; [lia | exact He].
  - intros H1. apply lineAt_first. lia.
Qed.

Lemma getCodeLines_top_down_witness :
  prevLineOfCode (snippetOf (getCodeLines sampleFiles (absentSnippet (mkErrPos 1 1 "two.nix"))))
  = None
  /\ errLineOfCode (snippetOf (getCodeLines sampleFiles (absentSnippet (mkErrPos 3 1 "five.nix"))))
     <> None.
Proof.
  split.
  - apply (getCodeLines_top_down sampleFiles (mkErrPos 1 1 "two.nix")). simpl. lia.
  - apply (getCodeLines_top_down sampleFiles (mkErrPos 3 1 "five.nix")). discriminate.
Defined.

(** * Further properties of the report *)

Section ReportShape.
Context {V : VerbosityEnum} {C : AnsiColors}.

Lemma printCodeLines_appends (out prefix : string) (c : NixCode) :
  printCodeLines out prefix c = out ++ printCodeLines "" prefix c.
Proof.
  unfold printCodeLines.
  destruct (prevLineOfCode c), (errLineOfCode c), (nextLineOfCode c),
    (column (errPos c) >? 0);
    cbn [append]; rewrite ?append_assoc, ?append_nil_r; reflexivity.
Qed.

Lemma printPosition_appends (out prefix : string) (einfo : ErrorInfo) :
  printPosition out prefix einfo = out ++ printPosition "" prefix einfo.
Proof.
  unfold printPosition. destruct (nixCode einfo) as [c|];
    [destruct (negb (String.eqb (file (errPos c)) ""))|];
    cbn [append]; rewrite ?append_assoc, ?append_nil_r; reflexivity.
Qed.

Lemma printDescription_appends (out prefix : string) (einfo : ErrorInfo) :
  printDescription out prefix einfo = out ++ printDescription "" prefix einfo.
Proof.
  unfold printDescription. destruct (negb (String.eqb (description einfo) ""));
    cbn [append]; rewrite ?append_assoc, ?append_nil_r; reflexivity.
Qed.

Lemma printLinesOfCode_appends (out prefix : string) (c : NixCode) :
  printLinesOfCode out prefix c = out ++ printLinesOfCode "" prefix c.
Proof.
  unfold printLinesOfCode. destruct (errLineOfCode c).
  - rewrite (printCodeLines_appends out). now rewrite append_assoc.
  - now rewrite append_nil_r.
Qed.

(** X6. The report never leaves by an exception, and it is written in
    full except in one case: it has no defined result exactly when the report
    carries a position and no hint. *)
Theorem operator_lshift_total (fs : FileSystem) (programName : option string)
    (out : string) (einfo : ErrorInfo) :
  (forall e : Exception, operator_lshift fs programName out einfo <> Raised e)
  /\ (operator_lshift fs programName out einfo = Undefined
      <-> nixCode einfo <> None /\ hint einfo = None)
  /\ ((exists text t, operator_lshift fs programName out einfo = Defined (text, t))
      <-> nixCode einfo = None \/ hint einfo <> None).
Proof.
  unfold operator_lshift, printHint.
  destruct (nixCode einfo) as [c|].
  - destruct (getCodeLines_returns fs c) as (c' & t & E). rewrite E.
    destruct (hint einfo) as [h|]; repeat split; try discriminate; eauto.
    + intros [_ H]. discriminate.
    + intros _. right. discriminate.
    + intros (text & t' & H). discriminate.
    + intros [H|H]; [discriminate | contradiction].
  - repeat split; try discriminate; eauto.
    intros [H _]. contradiction.
Qed.

(** X7. The report is appended to the stream: what the stream held is
    kept in front, and the text added and the system calls made do not depend
    on it. *)
Theorem operator_lshift_appends (fs : FileSystem) (programName : option string)
    (out : string) (einfo : ErrorInfo) :
  operator_lshift fs programName out einfo
  = match operator_lshift fs programName "" einfo with
    | Defined (text, t) => Defined (out ++ text, t)
    | Raised e => Raised e
    | Undefined => Undefined
    end.
Proof.
  unfold operator_lshift, printHint.
  destruct (nixCode einfo) as [c|] eqn:Hc.
  - destruct (getCodeLines fs c) as [[c' t] [e|]]; [reflexivity|].
    destruct (hint einfo) as [h|]; [|reflexivity].
    f_equal. f_equal.
    rewrite (printLinesOfCode_appends (printDescription _ _ _)).
    rewrite (printLinesOfCode_appends (printDescription (printPosition ("" ++ _) _ _) _ _)).
    rewrite (printDescription_appends (printPosition _ _ _)).
    rewrite (printDescription_appends (printPosition ("" ++ _) _ _)).
    rewrite (printPosition_appends (out ++ _)).
    rewrite (printPosition_appends ("" ++ _)).
    cbn [append]. now rewrite !append_assoc.
  - f_equal. f_equal.
    rewrite (printDescription_appends (printPosition _ _ _)).
    rewrite (printDescription_appends (printPosition ("" ++ _) _ _)).
    rewrite (printPosition_appends (out ++ _)).
    rewrite (printPosition_appends ("" ++ _)).
    cbn [append]. now rewrite !append_assoc.
Qed.

End ReportShape.

Section ReportContext.
Context {V : VerbosityEnum} {C : AnsiColors}.

(** X8. Showing the diagnostic does not depend on showing its context.
    For a report with a hint and a position that brings no lines of its own,
    if the line is not positive, or the file is "(string)", or the file does
    not open, or [readLine] returns fewer than [line] lines, the report is
    still written: divider, position line, description and hint, without any
    line of code. *)
Theorem operator_lshift_without_context (fs : FileSystem) (programName : option string)
    (out h : string) (einfo : ErrorInfo) (pos : ErrPos) :
  nixCode einfo = Some (absentSnippet pos) ->
  hint einfo = Some h ->
  line pos <= 0 \/ file pos = "(string)" \/ (exists w : string, fs (file pos) = OpenFailed w)
  \/ (exists (stream : list string) (ending : Exception),
        fs (file pos) = Opened stream ending /\ Z.of_nat (List.length stream) < line pos) ->
  exists t : list Effect,
    operator_lshift fs programName out einfo
    = Defined (printDescription
                 (printPosition (out ++ dividerLine "" einfo programName ++ endl) "" einfo)
                 "" einfo ++ h ++ endl ++ endl, t).
Proof.
  intros Hc Hh Hno.
  destruct (getCodeLines_returns fs (absentSnippet pos)) as (c' & t & E).
  exists t. apply (operator_lshift_without_errLine fs programName out h einfo
                     (absentSnippet pos) c' t Hc Hh E).
  destruct (getCodeLines_cases fs (absentSnippet pos))
    as [[_ E'] | [(_ & _ & w & _ & E') | (stream & ending & Hl & Hf & Hfs & E')]];
    rewrite E' in E; injection E as <- _;
    cbn [absentSnippet errLineOfCode errPos] in *; try reflexivity.
  rewrite keep_absent.
  destruct Hno as [H | [H | [[w' H] | (stream' & ending' & Hfs' & Hlen)]]];
    [lia | contradiction | congruence |].
  rewrite Hfs in Hfs'. injection Hfs' as <- <-.
  rewrite lineAt_error by lia. apply nth_error_None. lia.
Qed.


End ReportContext.

Lemma operator_lshift_without_context_witness :
  exists t : list Effect,
    operator_lshift (V := switchOrder) (C := noColors) sampleFiles None ""
      (mkErrorInfo 0 "" "oops" (Some "look elsewhere")
         (Some (absentSnippet (mkErrPos 3 1 "missing.nix"))))
    = Defined ("error: ---------------------------------------------------------------------------- "
                 ++ endl ++ "in file: missing.nix (3:1)" ++ endl ++ endl
                 ++ "oops" ++ endl ++ endl
                 ++ "look elsewhere" ++ endl ++ endl, t).
Proof.
  apply (operator_lshift_without_context (V := switchOrder) (C := noColors)
           sampleFiles None "" "look elsewhere"
           (mkErrorInfo 0 "" "oops" (Some "look elsewhere")
              (Some (absentSnippet (mkErrPos 3 1 "missing.nix"))))
           (mkErrPos 3 1 "missing.nix") eq_refl eq_refl).
  right. right. left. exists sysErrorWhat. reflexivity.
Defined.


(** * Further properties of the rendered texts *)

Section NoColumn.
Context {C : AnsiColors}.

(** X10. A position without column ([column <= 0]) gets no arrow line:
    the block is the numbered previous line if present, the numbered error
    line, and the numbered next line if present. The line is taken where
    [line - 1] and [line + 1] do not leave the range of [int]. *)
Theorem printCodeLines_without_column (out prefix : string) (c : NixCode) (e : string) :
  errLineOfCode c = Some e ->
  column (errPos c) <= 0 ->
  - 2 ^ 31 < line (errPos c) < 2 ^ 31 - 1 ->
  printCodeLines out prefix c
  = (match prevLineOfCode c with
     | Some l => out ++ numberGutter prefix (line (errPos c) - 1) ++ " " ++ l ++ endl
     | None => out
     end)
      ++ (numberGutter prefix (line (errPos c)) ++ " " ++ e) ++ endl
      ++ (match nextLineOfCode c with
          | Some l => numberGutter prefix (line (errPos c) + 1) ++ " " ++ l ++ endl
          | None => ""
          end).
Proof.
  intros He Hc Hl. unfold printCodeLines. rewrite He.
  replace (column (errPos c) >? 0) with false
    by (symmetry; rewrite Z.gtb_ltb; apply Z.ltb_ge; lia).
  rewrite !int_wrap_exact by lia.
  rewrite !fmtCodeLine_gutter.
  destruct (prevLineOfCode c), (nextLineOfCode c);
    rewrite ?fmtCodeLine_gutter, ?append_assoc, ?append_nil_r; reflexivity.
Qed.

End NoColumn.

Lemma printCodeLines_without_column_witness :
  printCodeLines (C := sgrColors) "" ""
    (mkNixCode (mkErrPos 2 0 "two.nix") (Some "alpha") (Some "beta") None)
  = "     1| alpha" ++ endl ++ "     2| beta" ++ endl.
Proof.
  rewrite (printCodeLines_without_column (C := sgrColors) "" ""
             (mkNixCode (mkErrPos 2 0 "two.nix") (Some "alpha") (Some "beta") None)
             "beta" eq_refl ltac:(simpl; lia) ltac:(simpl; lia)).
  reflexivity.
Defined.

Section Fallback.
Context {V : VerbosityEnum} {C : AnsiColors}.

Lemma levelStringOf_fallback (n : Z) :
  ~ In n enumerators -> levelStringOf n = "invalid error level: " ++ showInt n.
Proof.
  intros Hn. unfold enumerators in Hn. cbn [In] in Hn. unfold levelStringOf.
  repeat match goal with
         | |- context [?a =? ?b] =>
             destruct (Z.eqb_spec a b); [exfalso; intuition congruence|]
         end.
  reflexivity.
Qed.

(** X11. The label of a level outside the table tells which level it was:
    two such levels with the same label are equal, and the number is read
    back from the label's end. *)
Theorem levelStringOf_fallback_injective (n m : Z) :
  ~ In n enumerators ->
  ~ In m enumerators ->
  (levelStringOf n = levelStringOf m -> n = m)
  /\ readInt (substring 21 (String.length (levelStringOf n) - 21) (levelStringOf n)) = n.
Proof.
  intros Hn Hm. rewrite !levelStringOf_fallback by assumption. split.
  - intros E. cbn [append] in E. injection E as E. now apply showInt_injective.
  - cbn [append String.length substring Nat.sub]. rewrite ?Nat.sub_0_r.
    assert (Hsub : forall s, substring 0 (String.length s) s = s).
    { induction s as [|x s IH]; [reflexivity | cbn; now rewrite IH]. }
    rewrite Hsub. apply readInt_showInt.
Qed.

End Fallback.

Lemma levelStringOf_fallback_injective_witness :
  readInt (substring 21
             (String.length (levelStringOf (V := switchOrder) (C := sgrColors) 42) - 21)
             (levelStringOf (V := switchOrder) (C := sgrColors) 42))
  = 42.
Proof.
  apply (levelStringOf_fallback_injective (V := switchOrder) (C := sgrColors) 42 42);
    unfold enumerators; cbn; intuition discriminate.
Defined.

(** *** The text of a position determines the position *)

Lemma digitChar_other (d : Z) (c : ascii) :
  0 <= d < 10 ->
  (nat_of_ascii c < 48 \/ 57 < nat_of_ascii c)%nat ->
  Ascii.eqb (digitChar d) c = false.
Proof.
  intros Hd Hc. apply Ascii.eqb_neq. intros E.
  apply (f_equal nat_of_ascii) in E. unfold digitChar in E.
  rewrite nat_ascii_embedding in E by lia. lia.
Qed.

Lemma hasChar_showDigits (c : ascii) (fuel : nat) :
  (nat_of_ascii c < 48 \/ 57 < nat_of_ascii c)%nat ->
  forall (n : Z) (acc : string),
    0 <= n -> hasChar c acc = false -> hasChar c (showDigits fuel n acc) = false.
Proof.
  intros Hc. induction fuel as [|fuel IH]; intros n acc Hn Hacc; [exact Hacc|].
  pose proof (Z.mod_pos_bound n 10 ltac:(lia)) as Hmod.
  assert (Hstep : hasChar c (String (digitChar (n mod 10)) acc) = false).
  { cbn [hasChar]. now rewrite digitChar_other, Hacc by (lia || assumption). }
  cbn [showDigits]. destruct (n / 10 =? 0); [exact Hstep|].
  apply IH; [apply Z.div_pos; lia | exact Hstep].
Qed.

Lemma hasChar_showInt (c : ascii) (n : Z) :
  (nat_of_ascii c < 45 \/ 57 < nat_of_ascii c)%nat ->
  hasChar c (showInt n) = false.
Proof.
  intros Hc. unfold showInt, showNonneg. destruct (Z.ltb_spec n 0).
  - cbn [append hasChar].
    rewrite hasChar_showDigits by (lia || reflexivity).
    rewrite orb_false_r. apply Ascii.eqb_neq. intros E.
    apply (f_equal nat_of_ascii) in E. cbn in E. lia.
  - apply hasChar_showDigits; (lia || reflexivity).
Qed.

(** Texts cut at the first occurrence of a character. *)
Lemma append_cut (c : ascii) (a a' b b' : string) :
  hasChar c a = false -> hasChar c a' = false ->
  a ++ String c b = a' ++ String c b' -> a = a' /\ b = b'.
Proof.
  revert a'. induction a as [|x a IH]; intros [|x' a'] Ha Ha' E; cbn [append] in E.
  - injection E as E. now split.
  - injection E as -> _. cbn [hasChar] in Ha'. now rewrite Ascii.eqb_refl in Ha'.
  - injection E as -> _. cbn [hasChar] in Ha. now rewrite Ascii.eqb_refl in Ha.
  - injection E as -> E. cbn [hasChar] in Ha, Ha'.
    apply orb_false_iff in Ha as [_ Ha]. apply orb_false_iff in Ha' as [_ Ha'].
    destruct (IH a' Ha Ha' E) as [-> ->]. now split.
Qed.

Lemma append_cut_differs (c d : ascii) (a a' b b' : string) :
  c <> d -> hasChar d a = false -> hasChar c a' = false ->
  a ++ String c b <> a' ++ String d b'.
Proof.
  intros Hcd. revert a'. induction a as [|x a IH]; intros [|x' a'] Ha Ha' E;
    cbn [append] in E.
  - injection E as E _. contradiction.
  - injection E as -> _. cbn [hasChar] in Ha'. now rewrite Ascii.eqb_refl in Ha'.
  - injection E as -> _. cbn [hasChar] in Ha. now rewrite Ascii.eqb_refl in Ha.
  - injection E as -> E. cbn [hasChar] in Ha, Ha'.
    apply orb_false_iff in Ha as [_ Ha]. apply orb_false_iff in Ha' as [_ Ha'].
    exact (IH a' Ha Ha' E).
Qed.

(** X12. The text of a position tells the position: it is empty exactly
    when the line is not positive, and two positions with positive lines and
    the same text have the same line, and either the same positive column or
    no column ([column <= 0]) both. *)
Theorem showErrPos_injective (p q : ErrPos) :
  (showErrPos p = "" <-> line p <= 0)
  /\ (line p > 0 -> line q > 0 ->
      showErrPos p = showErrPos q ->
      line p = line q
      /\ ((column p > 0 /\ column q = column p)
          \/ (column p <= 0 /\ column q <= 0))).
Proof.
  split.
  - unfold showErrPos. destruct (Z.gtb_spec (line p) 0) as [Hl|Hl].
    + split; [|lia]. destruct (column p >? 0); discriminate.
    + split; [lia | reflexivity].
  - intros Hp Hq. unfold showErrPos.
    replace (line p >? 0) with true by (symmetry; apply Z.gtb_lt; lia).
    replace (line q >? 0) with true by (symmetry; apply Z.gtb_lt; lia).
    assert (Hcolon : forall n, hasChar ":" (showInt n) = false)
      by (intros n; apply hasChar_showInt; cbn; lia).
    assert (Hparen : forall n, hasChar ")" (showInt n) = false)
      by (intros n; apply hasChar_showInt; cbn; lia).
    destruct (Z.gtb_spec (column p) 0) as [Hcp|Hcp],
             (Z.gtb_spec (column q) 0) as [Hcq|Hcq];
      cbn [append]; intros E; injection E as E.
    + apply append_cut in E as [El Ec]; [|apply Hcolon|apply Hcolon].
      apply append_cut in Ec as [Ec _]; [|apply Hparen|apply Hparen].
      apply showInt_injective in El. apply showInt_injective in Ec.
      split; [exact El|]. left. split; [lia | now symmetry].
    + exfalso. revert E. apply append_cut_differs;
        [discriminate | apply Hparen | apply Hcolon].
    + exfalso. symmetry in E. revert E. apply append_cut_differs;
        [discriminate | apply Hparen | apply Hcolon].
    + apply append_cut in E as [El _]; [|apply Hparen|apply Hparen].
      apply showInt_injective in El. split; [exact El|]. right. lia.
Qed.

Lemma showErrPos_injective_witness :
  line (mkErrPos 10 2 "a.nix") = line (mkErrPos 10 2 "b.nix")
  /\ ((column (mkErrPos 10 2 "a.nix") > 0
       /\ column (mkErrPos 10 2 "b.nix") = column (mkErrPos 10 2 "a.nix"))
      \/ (column (mkErrPos 10 2 "a.nix") <= 0 /\ column (mkErrPos 10 2 "b.nix") <= 0)).
Proof.
  apply (showErrPos_injective (mkErrPos 10 2 "a.nix") (mkErrPos 10 2 "b.nix"));
    [simpl; lia | simpl; lia | reflexivity].
Defined.

(** * Properties of BaseError *)

(** X13. Prefixes stack in front of one another: after adding the
    prefixes of a list in turn, the prefix is they, last added first, in
    front of the prefix the error had; the cached message, the report and the
    name of the class are not touched. *)
Theorem addPrefix_stacks (l : list string) :
  forall e : BaseError,
    prefix_ (fold_left addPrefix l e) = String.concat "" (rev l) ++ prefix_ e
    /\ what_ (fold_left addPrefix l e) = what_ e
    /\ err (fold_left addPrefix l e) = err e
    /\ sname (fold_left addPrefix l e) = sname e.
Proof.
  assert (Hconcat : forall (k : list string) (s : string),
             String.concat "" (k ++ [s]) = String.concat "" k ++ s).
  { induction k as [|x [|y k] IH]; intros s.
    - reflexivity.
    - reflexivity.
    - change (String.concat "" ((x :: y :: k) ++ [s]))
        with (x ++ "" ++ String.concat "" ((y :: k) ++ [s])).
      rewrite IH. change (String.concat "" (x :: y :: k))
        with (x ++ "" ++ String.concat "" (y :: k)).
      cbn [append]. now rewrite append_assoc. }
  induction l as [|s l IH]; intros e; cbn [fold_left rev].
  - now repeat split.
  - destruct (IH (addPrefix e s)) as (Hp & Hw & He & Hs).
    rewrite Hp, Hw, He, Hs, Hconcat. cbn [addPrefix prefix_ what_ err sname].
    rewrite append_assoc. now repeat split.
Qed.

Section Message.
Context {V : VerbosityEnum} {C : AnsiColors}.

(** X14. The message is computed once. A call of [calcWhat] that returns
    leaves the object with that text cached; every later call, whatever the
    files and the program name have become, returns the same text, makes no
    system call and leaves the object as it is. *)
Theorem calcWhat_memoizes (fs : FileSystem) (programName : option string)
    (e e' : BaseError) (text : string) (t : list Effect) :
  calcWhat fs programName e = Defined (text, e', t) ->
  what_ e' = Some text
  /\ prefix_ e' = prefix_ e
  /\ forall (fs' : FileSystem) (programName' : option string),
      calcWhat fs' programName' e' = Defined (text, e', []).
Proof.
  unfold calcWhat. destruct (what_ e) as [w|] eqn:Hw.
  - intros E. injection E as <- <- _. rewrite Hw. repeat split.
  - destruct (operator_lshift fs programName "" (setName (sname e) (err e)))
      as [[text' t']| |]; [|discriminate|discriminate].
    intros E. injection E as <- <- _. cbn [what_ prefix_]. repeat split.
Qed.

(** X15. The message does not show the prefix, and it names the error by
    its class: adding a prefix leaves the text of [calcWhat] as it was, and
    before the first call the name stored in the report is replaced by
    [sname()], so that it has no influence on the text. *)
Theorem calcWhat_ignores_prefix_and_name (fs : FileSystem) (programName : option string)
    (e : BaseError) (s n : string) :
  textOf (calcWhat fs programName (addPrefix e s)) = textOf (calcWhat fs programName e)
  /\ textOf (calcWhat fs programName
               (mkBaseError (prefix_ e) (what_ e) (setName n (err e)) (sname e)))
     = textOf (calcWhat fs programName e)
  /\ (what_ e = None ->
      textOf (calcWhat fs programName e)
      = match operator_lshift fs programName "" (setName (sname e) (err e)) with
        | Defined (text, _) => Some text
        | _ => None
        end).
Proof.
  unfold calcWhat. cbn [addPrefix what_ err sname prefix_].
  destruct (what_ e) as [w|].
  - repeat split; try reflexivity. discriminate.
  - change (setName (sname e) (setName n (err e))) with (setName (sname e) (err e)).
    destruct (operator_lshift fs programName "" (setName (sname e) (err e)))
      as [[text t]| |]; repeat split; reflexivity.
Qed.

(** X16. [calcWhat] has no defined result exactly when nothing is cached
    and the report carries a position and no hint; it never leaves by an
    exception. *)
Theorem calcWhat_undefined_iff (fs : FileSystem) (programName : option string)
    (e : BaseError) :
  (calcWhat fs programName e = Undefined
   <-> what_ e = None /\ nixCode (err e) <> None /\ hint (err e) = None)
  /\ forall x : Exception, calcWhat fs programName e <> Raised x.
Proof.
  unfold calcWhat. destruct (what_ e) as [w|].
  - split; [split; [discriminate | intros [H _]; discriminate] | discriminate].
  - unfold operator_lshift, printHint.
    cbn [setName nixCode hint].
    destruct (nixCode (err e)) as [c|].
    + destruct (getCodeLines_returns fs c) as (c' & t & E). rewrite E.
      destruct (hint (err e)) as [h|].
      * split; [split; [discriminate | intros (_ & _ & H); discriminate] | discriminate].
      * split; [split; [intros _; repeat split; discriminate | reflexivity] | discriminate].
    + split; [split; [discriminate | intros (_ & H & _); contradiction] | discriminate].
Qed.

End Message.

Lemma calcWhat_memoizes_witness :
  calcWhat (V := switchOrder) (C := noColors) (fun _ => OpenFailed "") (Some "nix")
    (mkBaseError "while evaluating: "
       (Some ("error: --- Error " ++ replicate 66 "-" ++ " " ++ endl ++ "oops" ++ endl ++ endl))
       (mkErrorInfo 0 "Error" "oops" None None) "Error")
  = Defined ("error: --- Error " ++ replicate 66 "-" ++ " " ++ endl ++ "oops" ++ endl ++ endl,
             mkBaseError "while evaluating: "
               (Some ("error: --- Error " ++ replicate 66 "-" ++ " " ++ endl
                        ++ "oops" ++ endl ++ endl))
               (mkErrorInfo 0 "Error" "oops" None None) "Error",
             []).
Proof.
  destruct (calcWhat_memoizes (V := switchOrder) (C := noColors) sampleFiles None
              (mkBaseError "while evaluating: " None
                 (mkErrorInfo 0 "unnamed" "oops" None None) "Error")
              (mkBaseError "while evaluating: "
                 (Some ("error: --- Error " ++ replicate 66 "-" ++ " " ++ endl
                          ++ "oops" ++ endl ++ endl))
                 (mkErrorInfo 0 "Error" "oops" None None) "Error")
              ("error: --- Error " ++ replicate 66 "-" ++ " " ++ endl ++ "oops" ++ endl ++ endl)
              [] eq_refl) as (_ & _ & Hlater).
  apply Hlater.
Defined.

(** * Positions that are not read *)

Section Unread.
Context {V : VerbosityEnum} {C : AnsiColors}.

(** X17. A position whose line is not positive is still announced when
    its file has a name: the position line is "in file: ", the file name and a
    blank with nothing after it, since [showErrPos] gives the empty text; the
    file is not opened. *)
Theorem operator_lshift_without_line (fs : FileSystem) (programName : option string)
    (out h : string) (einfo : ErrorInfo) (pos : ErrPos) :
  nixCode einfo = Some (absentSnippet pos) ->
  hint einfo = Some h ->
  line pos <= 0 ->
  file pos <> "" ->
  operator_lshift fs programName out einfo
  = Defined (printDescription
               (out ++ dividerLine "" einfo programName ++ endl
                    ++ "in file: " ++ ANSI_BLUE ++ file pos ++ " " ++ ANSI_NORMAL ++ endl
                    ++ endl)
               "" einfo
             ++ h ++ endl ++ endl, []).
Proof.
  intros Hc Hh Hl Hf.
  rewrite (operator_lshift_without_errLine fs programName out h einfo
             (absentSnippet pos) (absentSnippet pos) [] Hc Hh)
    by (reflexivity || (apply getCodeLines_skips; now left)).
  rewrite (printPosition_named_file _ _ einfo (absentSnippet pos) Hc Hf).
  cbn [absentSnippet errPos].
  assert (Hshow : showErrPos pos = "").
  { unfold showErrPos. destruct (Z.gtb_spec (line pos) 0); [lia | reflexivity]. }
  rewrite Hshow. f_equal. f_equal. f_equal. f_equal.
  cbn [append]. now rewrite !append_assoc.
Qed.


End Unread.

Lemma operator_lshift_without_line_witness :
  operator_lshift (V := switchOrder) (C := noColors) sampleFiles None ""
    (mkErrorInfo 0 "" "" (Some "hint") (Some (absentSnippet (mkErrPos 0 0 "two.nix"))))
  = Defined ("error: ---------------------------------------------------------------------------- "
               ++ endl ++ "in file: two.nix " ++ endl ++ endl
               ++ "hint" ++ endl ++ endl, []).
Proof.
  rewrite (operator_lshift_without_line (V := switchOrder) (C := noColors)
             sampleFiles None "" "hint"
             (mkErrorInfo 0 "" "" (Some "hint") (Some (absentSnippet (mkErrPos 0 0 "two.nix"))))
             (mkErrPos 0 0 "two.nix") eq_refl eq_refl ltac:(simpl; lia) ltac:(discriminate)).
  reflexivity.
Defined.


(** * The report with a position, written out *)

Section ReportText.
Context {V : VerbosityEnum} {C : AnsiColors}.

(** The report of an error with a position and a hint, piece by piece:
    divider, position line, description, lines of code, hint. *)
Lemma operator_lshift_text (fs : FileSystem) (programName : option string)
    (out h : string) (einfo : ErrorInfo) (c nixcode : NixCode) (t : list Effect) :
  nixCode einfo = Some c ->
  hint einfo = Some h ->
  getCodeLines fs c = (nixcode, t, None) ->
  operator_lshift fs programName out einfo
  = Defined (out ++ dividerLine "" einfo programName ++ endl
               ++ (if String.eqb (file (errPos c)) ""
                   then "from command line argument" ++ endl ++ endl
                   else ("in file: " ++ ANSI_BLUE ++ file (errPos c) ++ " "
                           ++ showErrPos (errPos c) ++ ANSI_NORMAL) ++ endl ++ endl)
               ++ (if String.eqb (description einfo) "" then ""
                   else description einfo ++ endl ++ endl)
               ++ (match errLineOfCode nixcode with
                   | Some _ => printCodeLines "" "" nixcode ++ endl
                   | None => ""
                   end)
               ++ h ++ endl ++ endl, t).
Proof.
  intros Hc Hh Hget.
  unfold operator_lshift, printHint, printLinesOfCode, printDescription, printPosition.
  rewrite Hc, Hget, Hh. f_equal. f_equal.
  destruct (String.eqb (file (errPos c)) ""), (String.eqb (description einfo) ""),
    (errLineOfCode nixcode);
    cbn [negb]; rewrite ?(printCodeLines_appends (_ ++ _));
    string_norm; rewrite ?append_nil_r; reflexivity.
Qed.

(** C1, amended. The report and the extractor test different file names.
    For a report with a hint whose position has the empty text as file,
    [operator<<] writes the line "from command line argument", followed by
    an empty line, in place of the "in file:" line. For a report with a hint
    whose position has the file "(string)", the extractor performs no system
    call and leaves the snippet as it is, and [operator<<] announces the
    position with "in file:" like any other named file. *)
Theorem position_line_and_file_read (fs : FileSystem) (programName : option string)
    (out h : string) (einfo : ErrorInfo) (c : NixCode) :
  nixCode einfo = Some c ->
  hint einfo = Some h ->
  (file (errPos c) = "" ->
     exists (nixcode : NixCode) (t : list Effect),
       getCodeLines fs c = (nixcode, t, None)
       /\ operator_lshift fs programName out einfo
          = Defined (out ++ dividerLine "" einfo programName ++ endl
                       ++ "from command line argument" ++ endl
                       ++ endl
                       ++ (if String.eqb (description einfo) "" then ""
                           else description einfo ++ endl ++ endl)
                       ++ (match errLineOfCode nixcode with
                           | Some _ => printCodeLines "" "" nixcode ++ endl
                           | None => ""
                           end)
                       ++ h ++ endl ++ endl, t))
  /\ (file (errPos c) = "(string)" ->
      getCodeLines fs c = (c, [], None)
      /\ operator_lshift fs programName out einfo
         = Defined (out ++ dividerLine "" einfo programName ++ endl
                      ++ ("in file: " ++ ANSI_BLUE ++ "(string)" ++ " "
                            ++ showErrPos (errPos c) ++ ANSI_NORMAL) ++ endl
                      ++ endl
                      ++ (if String.eqb (description einfo) "" then ""
                          else description einfo ++ endl ++ endl)
                      ++ (match errLineOfCode c with
                          | Some _ => printCodeLines "" "" c ++ endl
                          | None => ""
                          end)
                      ++ h ++ endl ++ endl, [])).
Proof.
  intros Hc Hh. split.
  - intros Hfile.
    destruct (getCodeLines_returns fs c) as (nixcode & t & Hget).
    exists nixcode, t. split; [exact Hget|].
    rewrite (operator_lshift_text fs programName out h einfo c nixcode t Hc Hh Hget).
    rewrite Hfile. cbn [String.eqb]. now string_norm.
  - intros Hfile.
    assert (Hget : getCodeLines fs c = (c, [], None))
      by (apply getCodeLines_skips; now right).
    split; [exact Hget|].
    rewrite (operator_lshift_text fs programName out h einfo c c [] Hc Hh Hget).
    rewrite Hfile. cbn [String.eqb]. now string_norm.
Qed.

(** C4, amended. A snippet without error line shows in no line of the
    report, also when its previous or next line is present: [operator<<]
    calls [printCodeLines] only for a snippet that has its error line, and the
    report goes from the description straight to the hint. [printCodeLines]
    itself has no such test: on a snippet without error line it prints the
    previous and the next line that are present, and nothing else. *)
Theorem context_needs_errLine (nixcode : NixCode) :
  errLineOfCode nixcode = None ->
  (forall (fs : FileSystem) (programName : option string) (out h : string)
          (einfo : ErrorInfo) (c : NixCode) (t : list Effect),
      nixCode einfo = Some c ->
      hint einfo = Some h ->
      getCodeLines fs c = (nixcode, t, None) ->
      operator_lshift fs programName out einfo
      = Defined (out ++ dividerLine "" einfo programName ++ endl
                   ++ (if String.eqb (file (errPos c)) ""
                       then "from command line argument" ++ endl ++ endl
                       else ("in file: " ++ ANSI_BLUE ++ file (errPos c) ++ " "
                               ++ showErrPos (errPos c) ++ ANSI_NORMAL) ++ endl ++ endl)
                   ++ (if String.eqb (description einfo) "" then ""
                       else description einfo ++ endl ++ endl)
                   ++ h ++ endl ++ endl, t))
  /\ (forall out prefix : string,
      printCodeLines out prefix nixcode
      = out
          ++ (match prevLineOfCode nixcode with
              | Some l =>
                  fmtCodeLine prefix (int_wrap (line (errPos nixcode) - 1)) l ++ endl
              | None => ""
              end)
          ++ (match nextLineOfCode nixcode with
              | Some l =>
                  fmtCodeLine prefix (int_wrap (line (errPos nixcode) + 1)) l ++ endl
              | None => ""
              end)).
Proof.
  intros Herr. split.
  - intros fs programName out h einfo c t Hc Hh Hget.
    rewrite (operator_lshift_text fs programName out h einfo c nixcode t Hc Hh Hget).
    rewrite Herr. reflexivity.
  - intros out prefix. unfold printCodeLines. rewrite Herr.
    destruct (prevLineOfCode nixcode), (nextLineOfCode nixcode);
      rewrite ?append_assoc, ?append_nil_r; reflexivity.
Qed.

End ReportText.

(** [printCodeLines] on a snippet with a previous line and no error line
    prints that line. *)
Lemma printCodeLines_prints_without_errLine :
  errLineOfCode (mkNixCode (mkErrPos 2 1 "one.nix") (Some "single") None None) = None
  /\ printCodeLines (C := noColors) "" ""
       (mkNixCode (mkErrPos 2 1 "one.nix") (Some "single") None None)
     = "     1| single" ++ endl
  /\ printCodeLines (C := noColors) "" ""
       (mkNixCode (mkErrPos 2 1 "one.nix") (Some "single") None None)
     <> "".
Proof.
  split; [reflexivity|]. split; [reflexivity | discriminate].
Qed.

Lemma context_needs_errLine_witness :
  operator_lshift (V := switchOrder) (C := noColors) sampleFiles None ""
    (shortFileReport (V := switchOrder))
  = Defined ("error: --- name " ++ replicate 67 "-" ++ " " ++ endl
               ++ "in file: one.nix (2:1)" ++ endl ++ endl
               ++ "hint" ++ endl ++ endl,
             [Open "one.nix"; ReadLine; ReadLine; Close])
  /\ printCodeLines (C := noColors) "seen so far" ""
       (mkNixCode (mkErrPos 2 1 "one.nix") (Some "single") None None)
     = "seen so far" ++ "     1| single" ++ endl.
Proof.
  destruct (context_needs_errLine (V := switchOrder) (C := noColors)
              (mkNixCode (mkErrPos 2 1 "one.nix") (Some "single") None None) eq_refl)
    as [Hreport Hrenderer].
  split.
  - rewrite (Hreport sampleFiles None "" "hint" (shortFileReport (V := switchOrder))
               (absentSnippet (mkErrPos 2 1 "one.nix"))
               [Open "one.nix"; ReadLine; ReadLine; Close] eq_refl eq_refl eq_refl).
    reflexivity.
  - rewrite Hrenderer. reflexivity.
Defined.

Lemma position_line_and_file_read_witness :
  operator_lshift (V := switchOrder) (C := noColors) sampleFiles None ""
    (emptyFileReport (V := switchOrder))
  = Defined ("error: -----" ++ replicate 71 "-" ++ " " ++ endl
               ++ "from command line argument" ++ endl ++ endl
               ++ "hint" ++ endl ++ endl,
             [Open ""; PrintError ("error reading nix file: " ++ endl ++ sysErrorWhat)])
  /\ getCodeLines sampleFiles (absentSnippet (mkErrPos 10 2 "(string)"))
     = (absentSnippet (mkErrPos 10 2 "(string)"), [], None)
  /\ operator_lshift (V := switchOrder) (C := noColors) sampleFiles None ""
       (stringSourceReport (V := switchOrder))
     = Defined ("error: -----" ++ replicate 71 "-" ++ " " ++ endl
                  ++ "in file: (string) (10:2)" ++ endl ++ endl
                  ++ "hint" ++ endl ++ endl, []).
Proof.
  destruct (position_line_and_file_read (V := switchOrder) (C := noColors)
              sampleFiles None "" "hint" (emptyFileReport (V := switchOrder))
              (absentSnippet (mkErrPos 10 2 "")) eq_refl eq_refl) as [Hempty _].
  destruct (position_line_and_file_read (V := switchOrder) (C := noColors)
              sampleFiles None "" "hint" (stringSourceReport (V := switchOrder))
              (absentSnippet (mkErrPos 10 2 "(string)")) eq_refl eq_refl) as [_ Hstring].
  destruct (Hempty eq_refl) as (nixcode & t & Hget & Hout).
  destruct (Hstring eq_refl) as [Hskip Hin].
  split; [|split].
  - rewrite Hout. vm_compute in Hget. injection Hget as <- <-. reflexivity.
  - exact Hskip.
  - rewrite Hin. reflexivity.
Defined.

(** The sample text of a [SysError] is what [calcWhat] gives for an error
    of that class: without position its hint is not shown. *)
Example sysErrorWhat_rendered :
  textOf (calcWhat (V := switchOrder) (C := noColors) sampleFiles None
            (mkBaseError "" None
               (mkErrorInfo 0 "" ""
                  (Some "opening file 'missing.nix' : No such file or directory") None)
               "SysError"))
  = Some sysErrorWhat.
Proof. reflexivity. Qed.
